(** * NLPStock: the "why it moves" summary pipeline

    A shallow embedding of [src/summarization/why_it_moves_simple.py].

    The Python module is an orchestration script: it reads cached news,
    extracts article text, condenses it, asks a summarizer for one summary
    per article and for one aggregate explanation, and writes the result.
    Every function of the module is embedded below as a computation in a
    state-and-exception monad over

    - an abstract outside world [W] (file system, network, clock, random
      generator) on which the imported helpers act, and
    - a chronological trace of the observable effects of the module itself
      (log lines, console output, sleeps, calls of imported helpers).

    Python dictionaries are finite maps with string keys ([gmap string _]),
    Python floats are IEEE 754 values ([spec_float]). *)

From Stdlib Require Import ZArith QArith Qpower Ascii Floats.SpecFloat.
From stdpp Require Import base option gmap strings list pretty.

Local Open Scope Z_scope.
Local Open Scope nat_scope.
Local Open Scope string_scope.
Local Open Scope list_scope.

(** ** Values *)

(** Exceptions caught by [except Exception]; [str(e)] is the message. *)
Inductive exn : Type :=
| Exception (msg : string).

Definition str_exn (e : exn) : string :=
  match e with Exception msg => msg end.

(** The outcome of a call: a value, or a raised exception. *)
Inductive result (A : Type) : Type :=
| Ok (a : A)
| Raise (e : exn).
Arguments Ok {A} a.
Arguments Raise {A} e.

(** The values stored in a summary record. *)
Inductive pyvalue : Type :=
| VStr (s : string)
| VFloat (f : spec_float).

(** An article of the news cache: a dictionary of text fields. *)
Abbreviation article := (gmap string string).

(** A summary record: a dictionary from field names to values. *)
Abbreviation record := (gmap string pyvalue).

(** Truth value of a Python string: the empty string is false. *)
Definition truthy (s : string) : bool :=
  if decide (s = "") then false else true.

(** [s * n] on strings. *)
Fixpoint str_repeat (s : string) (n : nat) : string :=
  match n with
  | O => ""
  | S n' => s +:+ str_repeat s n'
  end.

(** [s[:n]] on strings. *)
Fixpoint str_take (n : nat) (s : string) : string :=
  match n, s with
  | S n', String c s' => String c (str_take n' s')
  | _, _ => ""
  end.

(** The line feed character, ["\n"]. *)
Definition nl : string :=
  String (Ascii.Ascii false true false true false false false false) "".

(** [s.replace(old, new)] for a non-empty [old]: occurrences are replaced
    from the left and do not overlap; [skip] counts the characters of a
    matched occurrence that are still to be dropped. *)
Fixpoint str_replace_from (old new : string) (skip : nat) (s : string)
  : string :=
  match s with
  | EmptyString => ""
  | String c s' =>
      match skip with
      | S k => str_replace_from old new k s'
      | O =>
          if String.prefix old s
          then new +:+ str_replace_from old new (String.length old - 1) s'
          else String c (str_replace_from old new 0 s')
      end
  end.

Definition str_replace (old new s : string) : string :=
  str_replace_from old new 0 s.

(** ** Floats and timestamps *)

(** The float literals [0], [5.0] and [-5.0]. *)
Definition float_zero : spec_float := S754_zero false.
Definition float_5 : spec_float := S754_finite false 5629499534213120 (-50).
Definition float_minus_5 : spec_float :=
  S754_finite true 5629499534213120 (-50).

(** A wall-clock reading, [datetime.now(timezone.utc)]. *)
Record datetime : Type := {
  year : N; month : N; day : N;
  hour : N; minute : N; second : N; microsecond : N
}.

(** The field ranges of a [datetime]. *)
Definition valid_datetime (d : datetime) : Prop :=
  (1 <= year d <= 9999 /\ 1 <= month d <= 12 /\ 1 <= day d <= 31 /\
   hour d < 24 /\ minute d < 60 /\ second d < 60 /\
   microsecond d < 1000000)%N.

Definition digit_char (d : N) : Ascii.ascii := Ascii.ascii_of_N (48 + d).

(** ["%0<width>d" % n] for [n < 10 ^ width]: the decimal digits of [n],
    zero-padded to [width] characters. *)
Fixpoint zero_padded (width : nat) (n : N) : string :=
  match width with
  | O => ""
  | S w =>
      zero_padded w (n / 10)%N +:+ String (digit_char (n mod 10)%N) ""
  end.

(** [d.isoformat()] for a [datetime] in UTC:
    [YYYY-MM-DDTHH:MM:SS[.ffffff]+00:00]; the fraction is left out when
    the microseconds are zero. *)
Definition isoformat (d : datetime) : string :=
  zero_padded 4 (year d) +:+ "-" +:+ zero_padded 2 (month d) +:+ "-"
  +:+ zero_padded 2 (day d) +:+ "T" +:+ zero_padded 2 (hour d) +:+ ":"
  +:+ zero_padded 2 (minute d) +:+ ":" +:+ zero_padded 2 (second d)
  +:+ (if decide (microsecond d = 0%N) then ""
       else "." +:+ zero_padded 6 (microsecond d))
  +:+ "+00:00".

(** ** classify_company *)

(** [net_change_percentage > 0] is the IEEE comparison [0 < c]. *)
Definition classify_company (net_change_percentage : spec_float) : string :=
  if SFltb float_zero net_change_percentage then "gainer" else "loser".

(** The real number denoted by a float that is neither NaN nor infinite:
    [(-1)^s * m * 2^e]. *)
Definition float_value (f : spec_float) : option Q :=
  match f with
  | S754_zero _ => Some 0%Q
  | S754_finite s m e =>
      Some (inject_Z (if s then Z.neg m else Z.pos m) * Qpower 2 e)%Q
  | S754_infinity _ | S754_nan => None
  end.

(** ** Effects *)

Inductive level : Type := INFO | WARNING | ERROR.

(** What the module does that can be observed from outside, in the order
    in which it happens. *)
Inductive event : Type :=
| Log (lvl : level) (msg : string)
| Print (msg : string)
| Sleep (seconds : nat)
| CallLoadJson (path : string)
| CallEnsureDirectory (path : string)
| CallSaveJson (data : record) (path : string)
| CallExtractArticleText (url : string)
| CallProcessArticlesBatch (articles : list article) (company symbol : string)
| CallSummarizeArticle (text symbol direction : string)
| CallSummarizeArticles (summaries : list string) (symbol : string).

(** Calls of the four collaborators of the summary: text extraction, the
    NLP condenser and the two summarizers. *)
Definition is_extraction_call (ev : event) : bool :=
  match ev with CallExtractArticleText _ => true | _ => false end.

Definition is_nlp_or_summarizer_call (ev : event) : bool :=
  match ev with
  | CallProcessArticlesBatch _ _ _
  | CallSummarizeArticle _ _ _
  | CallSummarizeArticles _ _ => true
  | _ => false
  end.

Definition is_error_log (ev : event) : bool :=
  match ev with Log ERROR _ => true | _ => false end.

Definition is_collaborator_call (ev : event) : bool :=
  match ev with
  | Log _ _ | Print _ | Sleep _ => false
  | _ => true
  end.

(** The imported helpers and library calls the module relies on; their
    code is outside this module.  Each acts on the outside world [W]. *)
Record collaborators (W : Type) : Type := {
  (** [Path(p).exists()]: a missing file gives [False], any other failure
      of the underlying [stat] (name too long, permission denied) is
      raised *)
  path_exists : string -> W -> result bool;
  (** [list(Path(d).glob(pattern))], as file names *)
  glob : string -> string -> W -> result (list string);
  (** [Path(name).stem] *)
  stem : string -> string;
  (** [Path(d) / name], as a string *)
  path_join : string -> string -> string;
  (** [format(x, ".2f")] *)
  format_2f : spec_float -> string;
  (** [str(x)] on a float *)
  float_str : spec_float -> string;
  (** [random.uniform(a, b)] *)
  random_uniform : spec_float -> spec_float -> W -> spec_float * W;
  (** [datetime.now(timezone.utc)] *)
  utc_now : W -> datetime * W;
  load_json : string -> W -> result (list article) * W;
  ensure_directory : string -> W -> result string * W;
  save_json : record -> string -> W -> result unit * W;
  extract_article_text : string -> W -> result string * W;
  process_articles_batch :
    list article -> string -> string -> W -> result (list article) * W;
  summarize_article : string -> string -> string -> W -> result string * W;
  summarize_articles : list string -> string -> W -> result string * W
}.
Arguments path_exists {W} _ _ _.
Arguments glob {W} _ _ _ _.
Arguments stem {W} _ _.
Arguments path_join {W} _ _ _.
Arguments format_2f {W} _ _.
Arguments float_str {W} _ _.
Arguments random_uniform {W} _ _ _ _.
Arguments utc_now {W} _ _.
Arguments load_json {W} _ _ _.
Arguments ensure_directory {W} _ _ _.
Arguments save_json {W} _ _ _ _.
Arguments extract_article_text {W} _ _ _.
Arguments process_articles_batch {W} _ _ _ _ _.
Arguments summarize_article {W} _ _ _ _ _.
Arguments summarize_articles {W} _ _ _ _.

(** The state threaded through the module. *)
Record state (W : Type) : Type := {
  world : W;
  trace : list event
}.
Arguments Build_state {W} _ _.
Arguments world {W} _.
Arguments trace {W} _.

Module Eff.

(** A computation: from a state to an outcome and the state it leaves.
    A raised exception keeps the effects that happened before it. *)
Definition M (W A : Type) : Type := state W -> result A * state W.

Definition run {W A} (c : M W A) (s : state W) : result A * state W := c s.

Definition ret {W A} (a : A) : M W A := fun s => (Ok a, s).

Definition bind {W A B} (c : M W A) (k : A -> M W B) : M W B :=
  fun s =>
    match c s with
    | (Ok a, s') => k a s'
    | (Raise e, s') => (Raise e, s')
    end.

Definition raise {W A} (e : exn) : M W A := fun s => (Raise e, s).

(** [try: c  except Exception as e: h e] *)
Definition try_except {W A} (c : M W A) (h : exn -> M W A) : M W A :=
  fun s =>
    match c s with
    | (Ok a, s') => (Ok a, s')
    | (Raise e, s') => h e s'
    end.

Definition record_event {W} (ev : event) (s : state W) : state W :=
  {| world := world s; trace := trace s ++ [ev] |}.

(** An effect of the module itself. *)
Definition emit {W} (ev : event) : M W unit :=
  fun s => (Ok tt, record_event ev s).

(** A call of a helper that may raise: the call is recorded, then the
    helper acts on the world. *)
Definition call {W A} (ev : event) (f : W -> result A * W) : M W A :=
  fun s =>
    let (r, w') := f (world s) in
    (r, {| world := w'; trace := trace s ++ [ev] |}).

(** A library call that cannot fail and is not recorded. *)
Definition lib {W A} (f : W -> A * W) : M W A :=
  fun s =>
    let (a, w') := f (world s) in
    (Ok a, {| world := w'; trace := trace s |}).

(** A read of the world, which may raise; it is not recorded. *)
Definition probe {W A} (f : W -> result A) : M W A :=
  fun s => (f (world s), s).

End Eff.

Import Eff.

Declare Scope eff_scope.
Delimit Scope eff_scope with eff.
Notation "x <~ c ;; k" := (bind c (fun x => k))
  (at level 20, c at level 99, k at level 200, only parsing) : eff_scope.
Notation "' pat <~ c ;; k" := (bind c (fun x => match x with pat => k end))
  (at level 20, pat pattern, c at level 99, k at level 200, only parsing)
  : eff_scope.
Notation "c ;; k" := (bind c (fun _ => k))
  (at level 100, k at level 200, only parsing, right associativity)
  : eff_scope.
Local Open Scope eff_scope.

Definition log_info {W} (msg : string) : M W unit := emit (Log INFO msg).
Definition log_warning {W} (msg : string) : M W unit := emit (Log WARNING msg).
Definition log_error {W} (msg : string) : M W unit := emit (Log ERROR msg).
Definition print {W} (msg : string) : M W unit := emit (Print msg).
Definition sleep {W} (seconds : nat) : M W unit := emit (Sleep seconds).

(** ** The module *)

Definition not_found : string := "Full article text not found.".

Definition no_news_text : string :=
  "There are no news currently affecting the stock price, fluctuations might be due to market conditions.".

Section Pipeline.

Context {W : Type} (E : collaborators W).

(** *** get_news_articles *)

Definition get_news_articles (symbol : string) : M W (list article) :=
  let news_path := "STOCK_DB/news/" +:+ symbol +:+ "_news.json" in
  present <~ probe (path_exists E news_path) ;;
  if negb present then
    log_warning ("No news file found for " +:+ symbol) ;;
    ret []
  else
    try_except
      (articles <~ call (CallLoadJson news_path) (load_json E news_path) ;;
       ret (if (5 <? length articles)%nat then take 5 articles
            else articles))
      (fun e =>
         log_error ("Error loading news for " +:+ symbol +:+ ": "
                    +:+ str_exn e) ;;
         ret []).

(** *** process_company_data *)

(** Line 50: the article carries text that is neither empty nor the
    "not found" marker. *)
Definition has_text (a : article) : bool :=
  match a !! "full_article_text" with
  | Some t => truthy t && (if decide (t = not_found) then false else true)
  | None => false
  end.

(** Line 55: [article.get("url", article.get("link", ""))]. *)
Definition article_url (a : article) : string :=
  default (default "" (a !! "link")) (a !! "url").

(** One iteration of the loop of lines 48-60: the article as the
    iteration leaves it, and the updated count. *)
Definition extract_one (a : article) (articles_with_text : nat)
  : M W (article * nat) :=
  if has_text a then ret (a, S articles_with_text)
  else
    let url := article_url a in
    if truthy url then
      full_article_text <~
        call (CallExtractArticleText url) (extract_article_text E url) ;;
      let a' := <["full_article_text" := full_article_text]> a in
      if decide (full_article_text = not_found)
      then ret (a', articles_with_text)
      else ret (a', S articles_with_text)
    else ret (a, articles_with_text).

(** The loop of lines 48-60. The dictionaries of [news_articles] are
    updated in place; the loop returns them as it leaves them. *)
Fixpoint extract_all (news_articles : list article) (articles_with_text : nat)
  : M W (list article * nat) :=
  match news_articles with
  | [] => ret ([], articles_with_text)
  | a :: rest =>
      '(a', n) <~ extract_one a articles_with_text ;;
      '(rest', n') <~ extract_all rest n ;;
      ret (a' :: rest', n')
  end.

(** One iteration of the loop of lines 83-96. *)
Definition summarize_one (symbol direction : string) (i : nat)
    (a : article) (summaries : list string) : M W (list string) :=
  let condensed_text := default "" (a !! "condensed_text") in
  if truthy condensed_text then
    print (nl +:+ "Article " +:+ pretty (i + 1) +:+ ":") ;;
    print (str_repeat "-" 40) ;;
    print condensed_text ;;
    print (str_repeat "-" 40) ;;
    summary <~ call (CallSummarizeArticle condensed_text symbol direction)
                    (summarize_article E condensed_text symbol direction) ;;
    let summaries' :=
      if truthy summary then summaries ++ [summary] else summaries in
    sleep 2 ;;
    ret summaries'
  else ret summaries.

(** The loop of lines 83-96, from index [i]. *)
Fixpoint summarize_each (symbol direction : string) (i : nat)
    (processed_articles : list article) (summaries : list string)
  : M W (list string) :=
  match processed_articles with
  | [] => ret summaries
  | a :: rest =>
      summaries' <~ summarize_one symbol direction i a summaries ;;
      summarize_each symbol direction (S i) rest summaries'
  end.

(** The body of the [try] of lines 73-110. *)
Definition summarize_news (symbol exchange : string)
    (news_articles : list article) (classification direction : string)
  : M W record :=
  processed_articles <~
    call (CallProcessArticlesBatch news_articles symbol symbol)
         (process_articles_batch E news_articles symbol symbol) ;;
  print (nl +:+ str_repeat "=" 80) ;;
  print ("PROCESSED TEXT AFTER NLP FOR " +:+ symbol +:+ ":") ;;
  print (str_repeat "=" 80) ;;
  summaries <~ summarize_each symbol direction 0 processed_articles [] ;;
  let summaries := filter (fun s => truthy s = true) summaries in
  match summaries with
  | [] =>
      log_info ("No valid summaries generated for " +:+ symbol) ;;
      ret {[ "symbol" := VStr symbol;
             "exchange" := VStr exchange;
             "type" := VStr classification;
             "period" := VStr "day";
             "summary" :=
               VStr "No valid article summaries could be generated." ]}
  | _ :: _ =>
      explanation <~ call (CallSummarizeArticles summaries symbol)
                          (summarize_articles E summaries symbol) ;;
      ret {[ "symbol" := VStr symbol;
             "exchange" := VStr exchange;
             "type" := VStr classification;
             "summary" := VStr explanation ]}
  end.

(** Line 33. *)
Definition direction_of (classification : string) : string :=
  if decide (classification = "gainer") then "up"
  else if decide (classification = "loser") then "down"
  else "neutral".

Definition process_company_data (symbol exchange : string)
    (news_articles : list article) (classification : string) : M W record :=
  let direction := direction_of classification in
  log_info ("Processing data for symbol: " +:+ symbol
            +:+ " - Classified as " +:+ classification) ;;
  match news_articles with
  | [] =>
      log_info ("No news articles found for " +:+ symbol) ;;
      ret {[ "symbol" := VStr symbol;
             "exchange" := VStr exchange;
             "type" := VStr classification;
             "period" := VStr "day";
             "summary" := VStr no_news_text ]}
  | _ :: _ =>
      '(news_articles', articles_with_text) <~ extract_all news_articles 0 ;;
      if decide (articles_with_text = 0) then
        log_info ("All articles for " +:+ symbol
                  +:+ " returned 'Full article text not found' - skipping summary") ;;
        ret {[ "symbol" := VStr symbol;
               "exchange" := VStr exchange;
               "type" := VStr classification;
               "period" := VStr "day";
               "summary" := VStr no_news_text ]}
      else
        try_except
          (summarize_news symbol exchange news_articles' classification
                          direction)
          (fun e =>
             log_error ("Error summarizing articles for " +:+ symbol
                        +:+ ": " +:+ str_exn e) ;;
             ret {[ "symbol" := VStr symbol;
                    "exchange" := VStr exchange;
                    "type" := VStr classification;
                    "period" := VStr "day";
                    "summary" :=
                      VStr "There was an error generating the summary." ]})
  end.

(** *** why_it_moves *)

Definition why_it_moves (symbol exchange : string)
    (daily_change_percentage : spec_float) : M W record :=
  let classification := classify_company daily_change_percentage in
  news_articles <~ get_news_articles symbol ;;
  base <~ process_company_data symbol exchange news_articles classification ;;
  now <~ lib (utc_now E) ;;
  let summary :=
    <["date_generated" := VStr (isoformat now)]>
      (<["daily_change_percentage" := VFloat daily_change_percentage]> base) in
  output_dir <~ call (CallEnsureDirectory "STOCK_DB/movers")
                     (ensure_directory E "STOCK_DB/movers") ;;
  let output_file := path_join E output_dir (symbol +:+ "_summary.json") in
  call (CallSaveJson summary output_file) (save_json E summary output_file) ;;
  log_info (exchange +:+ "/" +:+ symbol +:+ " mover summary saved to "
            +:+ output_file) ;;
  ret summary.

(** *** process_all_stocks *)

(** [summary[key]] *)
Definition getitem (summary : record) (key : string) : M W pyvalue :=
  match summary !! key with
  | Some v => ret v
  | None => raise (Exception ("'" +:+ key +:+ "'"))
  end.

(** [str(v)], as an f-string renders a field. *)
Definition str_value (v : pyvalue) : string :=
  match v with
  | VStr s => s
  | VFloat f => float_str E f
  end.

(** [v[:n]]: a slice of a string; a float cannot be sliced. *)
Definition slice_to (n : nat) (v : pyvalue) : M W string :=
  match v with
  | VStr s => ret (str_take n s)
  | VFloat _ => raise (Exception "'float' object is not subscriptable")
  end.

(** The body of the [try] of lines 159-180, for one news file. *)
Definition process_stock (news_file : string) : M W unit :=
  let symbol := str_replace "_news" "" (stem E news_file) in
  let exchange := "NASDAQ" in
  daily_change <~ lib (random_uniform E float_minus_5 float_5) ;;
  log_info ("Processing " +:+ symbol +:+ " with change "
            +:+ format_2f E daily_change +:+ "%") ;;
  summary <~ why_it_moves symbol exchange daily_change ;;
  print (nl +:+ symbol +:+ " (" +:+ exchange +:+ ") - Change: "
         +:+ format_2f E daily_change +:+ "%") ;;
  ty <~ getitem summary "type" ;;
  print ("Classification: " +:+ str_value ty) ;;
  text <~ getitem summary "summary" ;;
  preview <~ slice_to 200 text ;;
  print ("Summary: " +:+ preview +:+ "..." +:+ nl) ;;
  sleep 3.

(** One iteration of the loop of lines 158-183. *)
Definition process_file (news_file : string) : M W unit :=
  try_except
    (process_stock news_file)
    (fun e =>
       log_error ("Error processing " +:+ news_file +:+ ": " +:+ str_exn e)).

(** The loop of lines 158-183. *)
Fixpoint process_files (news_files : list string) : M W unit :=
  match news_files with
  | [] => ret tt
  | news_file :: rest => process_file news_file ;; process_files rest
  end.

Definition process_all_stocks : M W unit :=
  let news_dir := "STOCK_DB/news" in
  present <~ probe (path_exists E news_dir) ;;
  if negb present then
    log_error "News directory not found"
  else
    news_files <~ probe (glob E news_dir "*_news.json") ;;
    log_info ("Found " +:+ pretty (length news_files)
              +:+ " stocks with news data") ;;
    process_files news_files.

End Pipeline.

(** * Vocabulary of the statements *)

(** The two shapes of record that [process_company_data] builds: with the
    [period] field, and without it. *)
Definition record_with_period (symbol exchange classification text : string)
  : gmap string pyvalue :=
  {[ "symbol" := VStr symbol;
     "exchange" := VStr exchange;
     "type" := VStr classification;
     "period" := VStr "day";
     "summary" := VStr text ]}.

Definition record_without_period
    (symbol exchange classification text : string) : gmap string pyvalue :=
  {[ "symbol" := VStr symbol;
     "exchange" := VStr exchange;
     "type" := VStr classification;
     "summary" := VStr text ]}.

Definition no_valid_text : string :=
  "No valid article summaries could be generated.".

Definition error_text : string :=
  "There was an error generating the summary.".

(** The events recorded between two states of one run. *)
Definition events_since {W} (s s' : state W) : list event :=
  drop (length (trace s)) (trace s').

(** A field of an article is absent or empty. *)
Definition absent_or_empty (a : gmap string string) (key : string) : Prop :=
  a !! key = None \/ a !! key = Some "".

(** The fallback records, told apart by the last effect of the run: each
    fallback logs its own line just before it returns. The relation pairs
    the log line of a fallback with the summary text of its record. *)
Inductive fallback_of (symbol : string) : event -> string -> Prop :=
| fallback_no_articles :
    fallback_of symbol
      (Log INFO ("No news articles found for " +:+ symbol)) no_news_text
| fallback_no_usable_text :
    fallback_of symbol
      (Log INFO ("All articles for " +:+ symbol
         +:+ " returned 'Full article text not found' - skipping summary"))
      no_news_text
| fallback_no_valid_summaries :
    fallback_of symbol
      (Log INFO ("No valid summaries generated for " +:+ symbol))
      no_valid_text
| fallback_caught_error e :
    fallback_of symbol
      (Log ERROR ("Error summarizing articles for " +:+ symbol +:+ ": "
                  +:+ str_exn e))
      error_text.

(** What a run gave: the exception raised, a field of the record
    returned, the last effect. *)
Definition raised {W A} (out : result A * state W) : option exn :=
  match out.1 with Ok _ => None | Raise e => Some e end.

Definition returned_field {W} (key : string)
    (out : result (gmap string pyvalue) * state W) : option pyvalue :=
  match out.1 with Ok r => r !! key | Raise _ => None end.

Definition last_event {W A} (out : result A * state W) : option event :=
  last (trace out.2).

(** A computation only adds effects to the trace, and every effect it adds
    satisfies [P]. *)
Definition emits_only {W A} (P : event -> Prop) (c : M W A) : Prop :=
  forall s r s',
    run c s = (r, s') ->
    exists evs, trace s' = trace s ++ evs /\ Forall P evs.

(** Two articles agree on every field but the extracted text. *)
Definition same_but_text (a a' : gmap string string) : Prop :=
  forall key, key <> "full_article_text" -> a' !! key = a !! key.

(** The article text that the pipeline treats as missing: no text, an
    empty text, or the "not found" marker. *)
Definition text_missing (a : gmap string string) : Prop :=
  a !! "full_article_text" = None \/
  a !! "full_article_text" = Some "" \/
  a !! "full_article_text" = Some not_found.

(** A processed article has condensed text to summarize. *)
Definition has_condensed_text (a : gmap string string) : bool :=
  truthy (default "" (a !! "condensed_text")).

(** The effects allowed to [process_company_data] for a symbol and a
    direction: log lines, console output, sleeps of 2 seconds, text
    extraction, and calls of the NLP condenser and the summarizers for
    that symbol and direction. File operations are not among them. *)
Definition company_event (symbol direction : string) (ev : event) : Prop :=
  match ev with
  | Log _ _ | Print _ | CallExtractArticleText _ => True
  | Sleep seconds => seconds = 2
  | CallProcessArticlesBatch _ company sym => company = symbol /\ sym = symbol
  | CallSummarizeArticle _ sym dir => sym = symbol /\ dir = direction
  | CallSummarizeArticles _ sym => sym = symbol
  | CallLoadJson _ | CallEnsureDirectory _ | CallSaveJson _ _ => False
  end.

(** The effects of the loop of lines 83-96: console output, sleeps of 2
    seconds, and calls of the per-article summarizer. *)
Definition summary_loop_event (symbol direction : string) (ev : event)
  : Prop :=
  match ev with
  | Print _ => True
  | Sleep seconds => seconds = 2
  | CallSummarizeArticle _ sym dir => sym = symbol /\ dir = direction
  | _ => False
  end.

(** The effects allowed to [why_it_moves]: those of
    [process_company_data], loading the cache of the symbol, and writing
    into the movers directory. *)
Definition mover_event (symbol direction : string) (ev : event) : Prop :=
  match ev with
  | CallLoadJson path => path = "STOCK_DB/news/" +:+ symbol +:+ "_news.json"
  | CallEnsureDirectory path => path = "STOCK_DB/movers"
  | CallSaveJson _ _ => True
  | _ => company_event symbol direction ev
  end.

(** The calls at which [why_it_moves] can fail. *)
Definition is_failure_point (ev : event) : bool :=
  match ev with
  | CallExtractArticleText _ | CallEnsureDirectory _ | CallSaveJson _ _ => true
  | _ => false
  end.

(** A string without the character "_". *)
Fixpoint no_underscore (s : string) : bool :=
  match s with
  | EmptyString => true
  | String c s' =>
      (if decide (c = "_"%char) then false else true) && no_underscore s'
  end.


(** ** Reading a timestamp back *)

Definition digit_value (c : Ascii.ascii) : option N :=
  let n := Ascii.N_of_ascii c in
  if ((48 <=? n) && (n <=? 57))%N then Some (n - 48)%N else None.

(** Reads exactly [width] decimal digits from the front of [s]. *)
Fixpoint read_digits (width : nat) (acc : N) (s : string)
  : option (N * string) :=
  match width with
  | O => Some (acc, s)
  | S w =>
      match s with
      | String c s' =>
          match digit_value c with
          | Some d => read_digits w (10 * acc + d)%N s'
          | None => None
          end
      | EmptyString => None
      end
  end.

(** Reads the character [c] from the front of [s]. *)
Definition read_char (c : Ascii.ascii) (s : string) : option string :=
  match s with
  | String c' s' => if decide (c = c') then Some s' else None
  | EmptyString => None
  end.

(** Reads the optional fraction of seconds: a dot and six digits. *)
Definition read_fraction (s : string) : option (N * string) :=
  match s with
  | String "."%char s' =>
      read_digits 6 0 s'
  | _ => Some (0%N, s)
  end.

(** A reader of the ISO-8601 profile
    [YYYY-MM-DDTHH:MM:SS[.ffffff]+00:00], the extended format of a date
    and time of day with the UTC offset. *)
Definition parse_iso8601_utc (s : string) : option datetime :=
  '(y, s) ← read_digits 4 0 s;
  s ← read_char "-"%char s;
  '(mo, s) ← read_digits 2 0 s;
  s ← read_char "-"%char s;
  '(d, s) ← read_digits 2 0 s;
  s ← read_char "T"%char s;
  '(h, s) ← read_digits 2 0 s;
  s ← read_char ":"%char s;
  '(mi, s) ← read_digits 2 0 s;
  s ← read_char ":"%char s;
  '(sec, s) ← read_digits 2 0 s;
  '(us, s) ← read_fraction s;
  if decide (s = "+00:00") then
    Some {| year := y; month := mo; day := d;
            hour := h; minute := mi; second := sec; microsecond := us |}
  else None.

(** * Test doubles

    Concrete collaborators, used to run the module on explicit inputs. *)

Module Demo.

(** The world: the files written so far, newest first. *)
Definition files := list (string * gmap string pyvalue).

Record script : Type := {
  (** the news directory: file name and what loading it gives *)
  news_dir : list (string * result (list (gmap string string)));
  extractor : string -> result string;
  condenser : list (gmap string string) ->
              result (list (gmap string string));
  summarizer : string -> result string;
  aggregator : list string -> result string;
  (** paths that [save_json] cannot write *)
  read_only : list string
}.

Fixpoint find_news
    (entries : list (string * result (list (gmap string string))))
    (path : string) : option (result (list (gmap string string))) :=
  match entries with
  | [] => None
  | (name, content) :: rest =>
      if decide ("STOCK_DB/news/" +:+ name = path) then Some content
      else find_news rest path
  end.

Definition lookup_news (sc : script) (path : string)
  : option (result (list (gmap string string))) :=
  find_news (news_dir sc) path.

Definition clock : datetime :=
  {| year := 2024; month := 3; day := 9;
     hour := 14; minute := 5; second := 7; microsecond := 4200 |}.

(** Some component of a path, between two "/", is longer than [limit]. *)
Fixpoint component_too_long (limit length_so_far : nat) (path : string)
  : bool :=
  match path with
  | EmptyString => (limit <? length_so_far)%nat
  | String c rest =>
      if decide (c = "/"%char)
      then (limit <? length_so_far)%nat || component_too_long limit 0 rest
      else component_too_long limit (S length_so_far) rest
  end.

Definition env (sc : script) : collaborators files := {|
  path_exists p _ :=
    if component_too_long 255 0 p
    then Raise (Exception "[Errno 36] File name too long")
    else Ok (bool_decide (p = "STOCK_DB/news")
             || bool_decide (is_Some (lookup_news sc p)));
  glob _ _ _ := Ok (news_dir sc).*1;
  stem name := str_take (String.length name - 5) name;
  path_join d name := d +:+ "/" +:+ name;
  format_2f _ := "-5.00";
  float_str _ := "-5.0";
  random_uniform a _ w := (a, w);
  utc_now w := (clock, w);
  load_json p w :=
    (default (Raise (Exception "No such file")) (lookup_news sc p), w);
  ensure_directory p w := (Ok p, w);
  save_json data p w :=
    if bool_decide (p ∈ read_only sc)
    then (Raise (Exception "Permission denied"), w)
    else (Ok tt, (p, data) :: w);
  extract_article_text url w := (extractor sc url, w);
  process_articles_batch articles _ _ w := (condenser sc articles, w);
  summarize_article text _ _ w := (summarizer sc text, w);
  summarize_articles summaries _ w := (aggregator sc summaries, w)
|}.

Definition start : state files := {| world := []; trace := [] |}.

(** A condenser that copies the article text. *)
Definition copy_text (articles : list (gmap string string))
  : result (list (gmap string string)) :=
  Ok ((fun a => <["condensed_text" :=
                    default "" (a !! "full_article_text")]> a) <$> articles).

(** Everything works. *)
Definition healthy : script := {|
  news_dir := [];
  extractor url := Ok ("Text of " +:+ url);
  condenser := copy_text;
  summarizer text := Ok ("Summary: " +:+ text);
  aggregator summaries := Ok "Shares rose on strong earnings.";
  read_only := []
|}.

(** The per-article summarizer has nothing to say. *)
Definition mute : script := {|
  news_dir := [];
  extractor url := Ok ("Text of " +:+ url);
  condenser := copy_text;
  summarizer text := Ok "";
  aggregator summaries := Ok "Shares rose on strong earnings.";
  read_only := []
|}.

(** The per-article summarizer fails. *)
Definition broken_summarizer : script := {|
  news_dir := [];
  extractor url := Ok ("Text of " +:+ url);
  condenser := copy_text;
  summarizer text := Raise (Exception "rate limit exceeded");
  aggregator summaries := Ok "Shares rose on strong earnings.";
  read_only := []
|}.

(** Text extraction fails with an exception. *)
Definition broken_extractor : script := {|
  news_dir := [];
  extractor url := Raise (Exception "connection refused");
  condenser := copy_text;
  summarizer text := Ok ("Summary: " +:+ text);
  aggregator summaries := Ok "Shares rose on strong earnings.";
  read_only := []
|}.

(** Text extraction finds an empty page. *)
Definition empty_extractor : script := {|
  news_dir := [];
  extractor url := Ok "";
  condenser := copy_text;
  summarizer text := Ok ("Summary: " +:+ text);
  aggregator summaries := Ok "Shares rose on strong earnings.";
  read_only := []
|}.

(** Text extraction finds nothing. *)
Definition blind_extractor : script := {|
  news_dir := [];
  extractor url := Ok not_found;
  condenser := copy_text;
  summarizer text := Ok ("Summary: " +:+ text);
  aggregator summaries := Ok "Shares rose on strong earnings.";
  read_only := []
|}.

(** The summary of AAPL cannot be written. *)
Definition locked_output : script := {|
  news_dir := [("AAPL_news.json", Ok []); ("MSFT_news.json", Ok [])];
  extractor url := Ok ("Text of " +:+ url);
  condenser := copy_text;
  summarizer text := Ok ("Summary: " +:+ text);
  aggregator summaries := Ok "Shares rose on strong earnings.";
  read_only := ["STOCK_DB/movers/AAPL_summary.json"]
|}.

Definition article_with_url : gmap string string :=
  {[ "title" := "Results"; "url" := "http://news/1" ]}.

Definition article_with_text : gmap string string :=
  {[ "title" := "Results"; "full_article_text" := "Profit doubled." ]}.

Definition article_without_url : gmap string string :=
  {[ "title" := "Rumour"; "link" := "" ]}.

Definition article_empty_url : gmap string string :=
  {[ "title" := "Outlook"; "url" := ""; "link" := "http://news/2" ]}.

Definition article_with_link : gmap string string :=
  {[ "title" := "Guidance"; "link" := "http://news/3" ]}.

(** [article_with_text] once the condenser has copied its text. *)
Definition article_condensed : gmap string string :=
  <["condensed_text" := "Profit doubled."]> article_with_text.

(** [article_with_url] once its text has been extracted. *)
Definition article_extracted : gmap string string :=
  <["full_article_text" := "Text of http://news/1"]> article_with_url.

Definition numbered (n : nat) : gmap string string :=
  {[ "title" := "Story " +:+ pretty n ]}.

(** A cache of six articles for AAPL, and a cache that cannot be read
    for MSFT. *)
Definition six_articles : list (gmap string string) :=
  numbered <$> seq 1 6.

Definition two_caches : script := {|
  news_dir := [("AAPL_news.json", Ok six_articles);
               ("MSFT_news.json", Raise (Exception "Expecting value"))];
  extractor url := Ok ("Text of " +:+ url);
  condenser := copy_text;
  summarizer text := Ok ("Summary: " +:+ text);
  aggregator summaries := Ok "Shares rose on strong earnings.";
  read_only := []
|}.

End Demo.

(** * Properties *)

(** ** classify_company *)

Lemma pow2_pos (e : Z) : (0 < Qpower 2 e)%Q.
Proof. apply Qpower_0_lt. reflexivity. Qed.

Lemma float_value_pos (m : positive) (e : Z) :
  (0 < inject_Z (Z.pos m) * Qpower 2 e)%Q.
Proof. apply Qmult_lt_0_compat; [reflexivity | apply pow2_pos]. Qed.

Lemma float_value_neg (m : positive) (e : Z) :
  (inject_Z (Z.neg m) * Qpower 2 e < 0)%Q.
Proof.
  apply (Qlt_le_trans _ (0 * Qpower 2 e)%Q).
  - apply Qmult_lt_compat_r; [apply pow2_pos | reflexivity].
  - rewrite Qmult_0_l. apply Qle_refl.
Qed.

(** The comparison [c > 0] of the source agrees with the sign of the real
    number that [c] denotes. *)
Lemma gt_zero_iff (c : spec_float) (q : Q) :
  float_value c = Some q -> SFltb float_zero c = true <-> (0 < q)%Q.
Proof.
  destruct c as [s | s | | s m e]; simpl; intros Hq; try discriminate;
    injection Hq as <-.
  - split; [discriminate | intros H; destruct (Qlt_irrefl _ H)].
  - destruct s; cbn.
    + split; [discriminate |].
      intros H. exfalso.
      exact (Qlt_irrefl _ (Qlt_trans _ _ _ H (float_value_neg m e))).
    + split; [intros _; apply float_value_pos | reflexivity].
Qed.

(** C3. For every change percentage [c] that denotes a real number [q],
    [classify_company] returns "gainer" when [q > 0] and "loser" when
    [q <= 0]; both zeros are classified as "loser". *)
Theorem classify_company_by_sign (c : spec_float) (q : Q) :
  float_value c = Some q ->
  ((0 < q)%Q -> classify_company c = "gainer") /\
  ((q <= 0)%Q -> classify_company c = "loser") /\
  classify_company (S754_zero false) = "loser" /\
  classify_company (S754_zero true) = "loser".
Proof.
  intros Hq. pose proof (gt_zero_iff c q Hq) as Hiff.
  unfold classify_company. repeat split; try reflexivity.
  - intros Hpos. apply Hiff in Hpos. now rewrite Hpos.
  - intros Hle. destruct (SFltb float_zero c) eqn:Hlt; [| reflexivity].
    exfalso. apply (Qle_not_lt _ _ Hle). now apply Hiff.
Qed.

Lemma classify_company_by_sign_witness :
  float_value float_5 = Some (inject_Z 5629499534213120 * Qpower 2 (-50))%Q /\
  classify_company float_5 = "gainer" /\
  classify_company float_minus_5 = "loser".
Proof.
  split; [reflexivity |]. split.
  - exact (proj1 (classify_company_by_sign float_5 _ eq_refl)
                 (float_value_pos _ _)).
  - exact (proj1 (proj2 (classify_company_by_sign float_minus_5 _ eq_refl))
                 (Qlt_le_weak _ _ (float_value_neg _ _))).
Defined.

(** ** The effect monad *)

Section EffLemmas.

Context {W : Type}.

Lemma run_bind {A B} (c : M W A) (k : A -> M W B) (s : state W) :
  run (bind c k) s =
  match run c s with
  | (Ok a, s') => run (k a) s'
  | (Raise e, s') => (Raise e, s')
  end.
Proof. reflexivity. Qed.

Lemma run_try_except {A} (c : M W A) (h : exn -> M W A) (s : state W) :
  run (try_except c h) s =
  match run c s with
  | (Ok a, s') => (Ok a, s')
  | (Raise e, s') => run (h e) s'
  end.
Proof. reflexivity. Qed.

Lemma bind_ok_inv {A B} (c : M W A) (k : A -> M W B) s b s' :
  run (bind c k) s = (Ok b, s') ->
  exists a s1, run c s = (Ok a, s1) /\ run (k a) s1 = (Ok b, s').
Proof.
  rewrite run_bind. destruct (run c s) as [[a | e] s1]; intros H.
  - exists a, s1. split; [reflexivity | exact H].
  - discriminate.
Qed.

Lemma run_emit (ev : event) (s : state W) :
  run (emit ev) s = (Ok tt, record_event ev s).
Proof. reflexivity. Qed.

Lemma run_emit_bind {B} (ev : event) (k : unit -> M W B) (s : state W) :
  run (bind (emit ev) k) s = run (k tt) (record_event ev s).
Proof. reflexivity. Qed.

Lemma run_probe_bind {A B} (f : W -> result A) (k : A -> M W B)
    (s : state W) :
  run (bind (probe f) k) s =
  match f (world s) with
  | Ok a => run (k a) s
  | Raise e => (Raise e, s)
  end.
Proof. unfold run, bind, probe. destruct (f (world s)); reflexivity. Qed.

Lemma run_ret {A} (a : A) (s : state W) : run (ret a) s = (Ok a, s).
Proof. reflexivity. Qed.

Lemma run_call {A} (ev : event) (f : W -> result A * W) (s : state W) :
  run (call ev f) s =
  (fst (f (world s)),
   {| world := snd (f (world s)); trace := trace s ++ [ev] |}).
Proof. unfold run, call. destruct (f (world s)); reflexivity. Qed.

Lemma run_lib_bind {A B} (f : W -> A * W) (k : A -> M W B) (s : state W) :
  run (bind (lib f) k) s =
  run (k (fst (f (world s))))
      {| world := snd (f (world s)); trace := trace s |}.
Proof. unfold run, bind, lib. destruct (f (world s)); reflexivity. Qed.

Lemma call_trace {A} (ev : event) (f : W -> result A * W) s r s' :
  run (call ev f) s = (r, s') ->
  trace s' = trace s ++ [ev] /\ (r, world s') = f (world s).
Proof.
  unfold run, call. destruct (f (world s)) as [r0 w0].
  intros [= <- <-]. split; reflexivity.
Qed.

Lemma trace_record_event (ev : event) (s : state W) :
  trace (record_event ev s) = trace s ++ [ev].
Proof. reflexivity. Qed.

Lemma last_record_event (ev : event) (s : state W) :
  last (trace (record_event ev s)) = Some ev.
Proof. simpl. apply last_snoc. Qed.

End EffLemmas.

(** One step of a run: an effect of the module followed by the rest. *)
Ltac emit_step := cbv beta iota; rewrite run_emit_bind.

(** ** process_company_data: the shape of a run *)

Section Shape.

Context {W : Type} (E : collaborators W).

(** The [try] body, step by step. *)
Lemma summarize_news_run symbol exchange news classification direction
    (s : state W) :
  run (summarize_news E symbol exchange news classification direction) s =
  match run (call (CallProcessArticlesBatch news symbol symbol)
                  (process_articles_batch E news symbol symbol)) s with
  | (Raise e, s1) => (Raise e, s1)
  | (Ok processed, s1) =>
      let s2 :=
        record_event (Print (str_repeat "=" 80))
          (record_event (Print ("PROCESSED TEXT AFTER NLP FOR "
                                +:+ symbol +:+ ":"))
             (record_event (Print (nl +:+ str_repeat "=" 80)) s1)) in
      match run (summarize_each E symbol direction 0 processed []) s2 with
      | (Raise e, s3) => (Raise e, s3)
      | (Ok summaries, s3) =>
          match filter (fun x => truthy x = true) summaries with
          | [] =>
              (Ok (record_with_period symbol exchange classification
                                      no_valid_text),
               record_event
                 (Log INFO ("No valid summaries generated for " +:+ symbol))
                 s3)
          | x :: kept =>
              match run (call (CallSummarizeArticles (x :: kept) symbol)
                           (summarize_articles E (x :: kept) symbol)) s3 with
              | (Raise e, s4) => (Raise e, s4)
              | (Ok explanation, s4) =>
                  (Ok (record_without_period symbol exchange classification
                                             explanation), s4)
              end
          end
      end
  end.
Proof.
  unfold summarize_news. rewrite run_bind.
  destruct (run (call _ _) s) as [[processed | e] s1]; [| reflexivity].
  cbn zeta. unfold print. do 3 emit_step. rewrite run_bind.
  destruct (run (summarize_each _ _ _ _ _ _) _) as [[summaries | e] s3];
    [| reflexivity].
  destruct (filter _ summaries) as [| x kept].
  - unfold log_info. emit_step. reflexivity.
  - rewrite run_bind. destruct (run (call _ _) s3) as [[expl | e] s4];
      reflexivity.
Qed.

(** The whole function, step by step. *)
Lemma process_company_data_run symbol exchange news classification
    (s : state W) :
  run (process_company_data E symbol exchange news classification) s =
  let s0 :=
    record_event (Log INFO ("Processing data for symbol: " +:+ symbol
                            +:+ " - Classified as " +:+ classification)) s in
  match news with
  | [] =>
      (Ok (record_with_period symbol exchange classification no_news_text),
       record_event (Log INFO ("No news articles found for " +:+ symbol)) s0)
  | _ :: _ =>
      match run (extract_all E news 0) s0 with
      | (Raise e, s1) => (Raise e, s1)
      | (Ok (news', O), s1) =>
          (Ok (record_with_period symbol exchange classification
                                  no_news_text),
           record_event
             (Log INFO ("All articles for " +:+ symbol
                +:+ " returned 'Full article text not found' - skipping summary"))
             s1)
      | (Ok (news', S _), s1) =>
          match run (summarize_news E symbol exchange news' classification
                       (direction_of classification)) s1 with
          | (Ok r, s2) => (Ok r, s2)
          | (Raise e, s2) =>
              (Ok (record_with_period symbol exchange classification
                                      error_text),
               record_event
                 (Log ERROR ("Error summarizing articles for " +:+ symbol
                             +:+ ": " +:+ str_exn e)) s2)
          end
      end
  end.
Proof.
  unfold process_company_data. cbn zeta. unfold log_info. emit_step.
  destruct news as [| a rest]; [emit_step; reflexivity |].
  rewrite run_bind.
  destruct (run (extract_all E (a :: rest) 0) _) as [[[news' n] | e] s1];
    [| reflexivity].
  cbv beta iota. destruct n as [| n].
  { destruct (decide (0 = 0)) as [_ | []]; [| reflexivity].
    emit_step. reflexivity. }
  destruct (decide (S n = 0)) as [Heq | _]; [discriminate |].
  rewrite run_try_except.
  destruct (run (summarize_news _ _ _ _ _ _) s1) as [[r | e] s2];
    reflexivity.
Qed.

End Shape.

(** ** The fields of the two record shapes *)

Section Fields.

Variables symbol exchange classification text : string.

Lemma with_period_symbol :
  record_with_period symbol exchange classification text !! "symbol"
  = Some (VStr symbol).
Proof. unfold record_with_period. by simplify_map_eq. Qed.

Lemma with_period_exchange :
  record_with_period symbol exchange classification text !! "exchange"
  = Some (VStr exchange).
Proof. unfold record_with_period. by simplify_map_eq. Qed.

Lemma with_period_type :
  record_with_period symbol exchange classification text !! "type"
  = Some (VStr classification).
Proof. unfold record_with_period. by simplify_map_eq. Qed.

Lemma with_period_period :
  record_with_period symbol exchange classification text !! "period"
  = Some (VStr "day").
Proof. unfold record_with_period. by simplify_map_eq. Qed.

Lemma with_period_summary :
  record_with_period symbol exchange classification text !! "summary"
  = Some (VStr text).
Proof. unfold record_with_period. by simplify_map_eq. Qed.

Lemma without_period_symbol :
  record_without_period symbol exchange classification text !! "symbol"
  = Some (VStr symbol).
Proof. unfold record_without_period. by simplify_map_eq. Qed.

Lemma without_period_exchange :
  record_without_period symbol exchange classification text !! "exchange"
  = Some (VStr exchange).
Proof. unfold record_without_period. by simplify_map_eq. Qed.

Lemma without_period_type :
  record_without_period symbol exchange classification text !! "type"
  = Some (VStr classification).
Proof. unfold record_without_period. by simplify_map_eq. Qed.

Lemma without_period_period :
  record_without_period symbol exchange classification text !! "period"
  = None.
Proof. unfold record_without_period. by simplify_map_eq. Qed.

Lemma without_period_summary :
  record_without_period symbol exchange classification text !! "summary"
  = Some (VStr text).
Proof. unfold record_without_period. by simplify_map_eq. Qed.

End Fields.

(** ** process_company_data: what it returns *)

Section Returns.

Context {W : Type} (E : collaborators W).

Lemma summarize_news_returns symbol exchange news classification direction
    (s : state W) r s' :
  run (summarize_news E symbol exchange news classification direction) s
  = (Ok r, s') ->
  (r = record_with_period symbol exchange classification no_valid_text /\
   last (trace s')
   = Some (Log INFO ("No valid summaries generated for " +:+ symbol)))
  \/
  (exists summaries explanation,
      summaries <> [] /\
      r = record_without_period symbol exchange classification explanation /\
      last (trace s') = Some (CallSummarizeArticles summaries symbol)).
Proof.
  rewrite summarize_news_run.
  destruct (run (call _ _) s) as [[processed | e] s1]; [| discriminate].
  cbv zeta.
  destruct (run (summarize_each _ _ _ _ _ _) _) as [[summaries | e] s3];
    [| discriminate].
  destruct (filter _ summaries) as [| x kept].
  - intros [= <- <-]. left. split; [reflexivity | apply last_record_event].
  - destruct (run (call _ _) s3) as [[expl | e] s4] eqn:Hcall;
      [| discriminate].
    intros [= <- <-]. right. exists (x :: kept), expl.
    apply call_trace in Hcall as [Htr _].
    repeat split; [discriminate |]. rewrite Htr. apply last_snoc.
Qed.

(** Every record that [process_company_data] returns is either a
    fallback record, built with [period] right after the log line of
    its branch, or the record of the aggregate summary, built without
    [period] right after the call of the aggregate summarizer. *)
Lemma process_company_data_returns symbol exchange news classification
    (s : state W) r s' :
  run (process_company_data E symbol exchange news classification) s
  = (Ok r, s') ->
  (exists ev text,
      fallback_of symbol ev text /\
      last (trace s') = Some ev /\
      r = record_with_period symbol exchange classification text)
  \/
  (exists summaries explanation,
      summaries <> [] /\
      r = record_without_period symbol exchange classification explanation /\
      last (trace s') = Some (CallSummarizeArticles summaries symbol)).
Proof.
  rewrite process_company_data_run. cbv zeta.
  destruct news as [| a rest].
  { intros [= <- <-]. left. eexists _, _.
    split; [apply fallback_no_articles |].
    split; [apply last_record_event | reflexivity]. }
  destruct (run (extract_all _ _ _) _) as [[[news' n] | e] s1];
    [| discriminate].
  destruct n as [| n].
  { intros [= <- <-]. left. eexists _, _.
    split; [apply fallback_no_usable_text |].
    split; [apply last_record_event | reflexivity]. }
  destruct (run (summarize_news _ _ _ _ _ _) s1) as [[r0 | e] s2] eqn:Hbody.
  - intros [= <- <-].
    apply summarize_news_returns in Hbody as [[-> Hlast] | Hok].
    + left. eexists _, _.
      split; [apply fallback_no_valid_summaries |].
      split; [exact Hlast | reflexivity].
    + right. exact Hok.
  - intros [= <- <-]. left. eexists _, _.
    split; [apply (fallback_caught_error _ e) |].
    split; [apply last_record_event | reflexivity].
Qed.

End Returns.

(** ** process_company_data: the claims *)

Section Claims.

Context {W : Type} (E : collaborators W).

(** C4. With an empty article list, [process_company_data] returns the
    neutral-market fallback record, with period "day", whatever the
    symbol, exchange and classification; the world is left as it was
    and the only effects are two log lines: no collaborator is
    called. *)
Theorem no_articles_fallback symbol exchange classification (s : state W) :
  exists s',
    run (process_company_data E symbol exchange [] classification) s
    = (Ok {[ "symbol" := VStr symbol;
             "exchange" := VStr exchange;
             "type" := VStr classification;
             "period" := VStr "day";
             "summary" := VStr
               "There are no news currently affecting the stock price, fluctuations might be due to market conditions." ]},
       s') /\
    world s' = world s /\
    events_since s s' =
      [ Log INFO ("Processing data for symbol: " +:+ symbol
                  +:+ " - Classified as " +:+ classification);
        Log INFO ("No news articles found for " +:+ symbol) ] /\
    filter (fun ev => is_collaborator_call ev = true) (events_since s s')
    = [].
Proof.
  eexists. split; [reflexivity |]. split; [reflexivity |].
  assert (Hev : forall a b : event,
             drop (length (trace s)) ((trace s ++ [a]) ++ [b]) = [a; b]).
  { intros a b. rewrite <- (assoc_L app). apply drop_app_length. }
  unfold events_since. cbn [trace record_event]. rewrite Hev.
  split; reflexivity.
Qed.

(** C9. Whatever branch returns, the record has [symbol], [exchange]
    and [type] equal to the arguments of the call. *)
Theorem returned_record_identifies_call symbol exchange news classification
    (s : state W) r s' :
  run (process_company_data E symbol exchange news classification) s
  = (Ok r, s') ->
  r !! "symbol" = Some (VStr symbol) /\
  r !! "exchange" = Some (VStr exchange) /\
  r !! "type" = Some (VStr classification).
Proof.
  intros Hrun.
  apply process_company_data_returns in Hrun
    as [(ev & text & _ & _ & ->) | (summaries & expl & _ & -> & _)].
  - split; [apply with_period_symbol |].
    split; [apply with_period_exchange | apply with_period_type].
  - split; [apply without_period_symbol |].
    split; [apply without_period_exchange | apply without_period_type].
Qed.

(** C1, as the code has it. The [period] field is present, with value
    "day", on all four fallback records (no articles, no usable text, no
    valid summaries, caught error); it is absent only on the record of
    the successful aggregate summary. *)
Theorem period_on_every_fallback symbol exchange news classification
    (s : state W) r s' :
  run (process_company_data E symbol exchange news classification) s
  = (Ok r, s') ->
  (exists ev text,
      fallback_of symbol ev text /\
      last (trace s') = Some ev /\
      r !! "summary" = Some (VStr text) /\
      r !! "period" = Some (VStr "day"))
  \/
  (exists summaries explanation,
      last (trace s') = Some (CallSummarizeArticles summaries symbol) /\
      r !! "summary" = Some (VStr explanation) /\
      r !! "period" = None).
Proof.
  intros Hrun.
  apply process_company_data_returns in Hrun
    as [(ev & text & Hfb & Hlast & ->) | (summaries & expl & _ & -> & Hlast)].
  - left. exists ev, text.
    split; [exact Hfb |]. split; [exact Hlast |].
    split; [apply with_period_summary | apply with_period_period].
  - right. exists summaries, expl. split; [exact Hlast |].
    split; [apply without_period_summary | apply without_period_period].
Qed.

(** C2, as the code has it. For a non-empty article list, an exception
    raised in the [try] body (by the NLP condenser, the per-article
    summarizer or the aggregate summarizer) is caught and turned into
    the "error generating the summary" record, so that the call returns
    a record whenever text extraction returns; an exception raised by
    text extraction is outside the [try] and reaches the caller. *)
Theorem exceptions_caught_after_extraction symbol exchange a rest
    classification (s : state W) :
  let s0 :=
    record_event (Log INFO ("Processing data for symbol: " +:+ symbol
                            +:+ " - Classified as " +:+ classification)) s in
  (forall e s1,
      run (extract_all E (a :: rest) 0) s0 = (Raise e, s1) ->
      run (process_company_data E symbol exchange (a :: rest)
             classification) s = (Raise e, s1)) /\
  (forall news' n s1,
      run (extract_all E (a :: rest) 0) s0 = (Ok (news', n), s1) ->
      exists r s',
        run (process_company_data E symbol exchange (a :: rest)
               classification) s = (Ok r, s')) /\
  (forall news' n s1 e s2,
      run (extract_all E (a :: rest) 0) s0 = (Ok (news', S n), s1) ->
      run (summarize_news E symbol exchange news' classification
             (direction_of classification)) s1 = (Raise e, s2) ->
      run (process_company_data E symbol exchange (a :: rest)
             classification) s
      = (Ok {[ "symbol" := VStr symbol;
               "exchange" := VStr exchange;
               "type" := VStr classification;
               "period" := VStr "day";
               "summary" :=
                 VStr "There was an error generating the summary." ]},
         record_event
           (Log ERROR ("Error summarizing articles for " +:+ symbol
                       +:+ ": " +:+ str_exn e)) s2)).
Proof.
  cbv zeta. repeat split.
  - intros e s1 Hex. rewrite process_company_data_run. cbv zeta.
    now rewrite Hex.
  - intros news' n s1 Hex. rewrite process_company_data_run. cbv zeta.
    rewrite Hex. destruct n as [| n]; [eauto |].
    destruct (run (summarize_news _ _ _ _ _ _) s1) as [[r | e] s2]; eauto.
  - intros news' n s1 e s2 Hex Hbody. rewrite process_company_data_run.
    cbv zeta. now rewrite Hex, Hbody.
Qed.

End Claims.


(** ** The extraction loop *)

Section Extraction.

Context {W : Type} (E : collaborators W).

Lemma extract_all_cons a rest n (s : state W) :
  run (extract_all E (a :: rest) n) s =
  match run (extract_one E a n) s with
  | (Ok (a', m), s1) =>
      match run (extract_all E rest m) s1 with
      | (Ok (rest', k), s2) => (Ok (a' :: rest', k), s2)
      | (Raise e, s2) => (Raise e, s2)
      end
  | (Raise e, s1) => (Raise e, s1)
  end.
Proof.
  cbn [extract_all]. rewrite run_bind.
  destruct (run (extract_one E a n) s) as [[[a' m] | e] s1]; [| reflexivity].
  rewrite run_bind.
  destruct (run (extract_all E rest m) s1) as [[[rest' k] | e] s2];
    reflexivity.
Qed.

Lemma extract_all_app l1 l2 n (s : state W) :
  run (extract_all E (l1 ++ l2) n) s =
  match run (extract_all E l1 n) s with
  | (Ok (l1', m), s1) =>
      match run (extract_all E l2 m) s1 with
      | (Ok (l2', k), s2) => (Ok (l1' ++ l2', k), s2)
      | (Raise e, s2) => (Raise e, s2)
      end
  | (Raise e, s1) => (Raise e, s1)
  end.
Proof.
  revert n s. induction l1 as [| a l1 IH]; intros n s.
  - cbn [app extract_all]. unfold run at 2, ret.
    destruct (run (extract_all E l2 n) s) as [[[l2' k] | e] s2];
      reflexivity.
  - rewrite <- app_comm_cons, !extract_all_cons.
    destruct (run (extract_one E a n) s) as [[[a' m] | e] s1];
      [| reflexivity].
    rewrite IH.
    destruct (run (extract_all E l1 m) s1) as [[[l1' k] | e] s2];
      [| reflexivity].
    destruct (run (extract_all E l2 k) s2) as [[[l2' j] | e] s3];
      reflexivity.
Qed.

(** The loop returns as many articles as it was given. *)
Lemma extract_all_length l n (s : state W) l' m s' :
  run (extract_all E l n) s = (Ok (l', m), s') -> length l' = length l.
Proof.
  revert n s l' m s'. induction l as [| a l IH]; intros n s l' m s'.
  - intros [= <- _ _]. reflexivity.
  - rewrite extract_all_cons.
    destruct (run (extract_one E a n) s) as [[[a' k] | e] s1];
      [| discriminate].
    destruct (run (extract_all E l k) s1) as [[[rest' j] | e] s2] eqn:Hrest;
      [| discriminate].
    intros [= <- _ _]. cbn. f_equal. exact (IH _ _ _ _ _ Hrest).
Qed.

Lemma article_url_empty (a : article) :
  absent_or_empty a "url" -> absent_or_empty a "link" -> article_url a = "".
Proof.
  unfold article_url. intros [-> | ->] [-> | ->]; reflexivity.
Qed.

(** An article without text and without an address goes through an
    iteration untouched, and the iteration has no effect at all. *)
Lemma extract_one_skips (a : article) n (s : state W) :
  has_text a = false ->
  absent_or_empty a "url" -> absent_or_empty a "link" ->
  run (extract_one E a n) s = (Ok (a, n), s).
Proof.
  intros Htext Hurl Hlink. unfold extract_one.
  rewrite Htext, (article_url_empty a Hurl Hlink). reflexivity.
Qed.

(** C10. An article that lacks usable text and whose [url] and [link]
    are both absent or empty is skipped by the extraction loop: the
    loop over a list that contains it runs exactly as the loop over the
    list without it (same calls of the extractor, same effects, same
    count of articles with text, same failure if any), and hands the
    article back unmodified at its place. *)
Theorem article_without_address_is_skipped
    (a : article) (before after : list article) n (s : state W) :
  has_text a = false ->
  absent_or_empty a "url" -> absent_or_empty a "link" ->
  run (extract_all E (before ++ a :: after) n) s =
  match run (extract_all E (before ++ after) n) s with
  | (Ok (others, m), s') =>
      (Ok (take (length before) others ++ a
             :: drop (length before) others, m), s')
  | (Raise e, s') => (Raise e, s')
  end.
Proof.
  intros Htext Hurl Hlink. rewrite !extract_all_app.
  destruct (run (extract_all E before n) s) as [[[before' m] | e] s1] eqn:Hb;
    [| reflexivity].
  apply extract_all_length in Hb.
  rewrite extract_all_cons, (extract_one_skips a m s1 Htext Hurl Hlink).
  destruct (run (extract_all E after m) s1) as [[[after' k] | e] s2];
    [| reflexivity].
  rewrite <- Hb, take_app_length, drop_app_length. reflexivity.
Qed.

End Extraction.


(** ** get_news_articles *)

Section News.

Context {W : Type} (E : collaborators W).

(** C6, as the code has it. When the existence check of the cache file
    returns, [get_news_articles] returns a list, never an error; the list
    has at most 5 articles: the first 5 of the cache when it holds more,
    the whole cache otherwise, and no article when the cache file is
    absent or loading it raises. The existence check of line 19 is
    outside the [try]: an error it raises reaches the caller, before
    anything is logged or loaded. *)
Theorem get_news_articles_at_most_five symbol (s : state W) :
  let news_path := "STOCK_DB/news/" +:+ symbol +:+ "_news.json" in
  (forall e,
      path_exists E news_path (world s) = Raise e ->
      run (get_news_articles E symbol) s = (Raise e, s)) /\
  (forall present,
      path_exists E news_path (world s) = Ok present ->
      exists articles s',
        run (get_news_articles E symbol) s = (Ok articles, s') /\
        length articles <= 5 /\
        (present = false -> articles = []) /\
        (forall e w,
            present = true ->
            load_json E news_path (world s) = (Raise e, w) ->
            articles = []) /\
        (forall cached w,
            present = true ->
            load_json E news_path (world s) = (Ok cached, w) ->
            articles = take 5 cached /\
            (length cached <= 5 -> articles = cached))).
Proof.
  cbv zeta. unfold get_news_articles. cbv zeta.
  rewrite run_probe_bind. split.
  { intros e ->. reflexivity. }
  intros present ->. destruct present; cbn [negb].
  - rewrite run_try_except, run_bind, run_call.
    destruct (load_json E _ (world s)) as [[cached | e] w] eqn:Hload;
      cbn [fst snd].
    + rewrite run_ret. eexists _, _. split; [reflexivity |].
      assert (Htake : (if (5 <? length cached)%nat then take 5 cached
                       else cached)
                      = take 5 cached).
      { destruct (Nat.ltb_spec 5 (length cached)); [reflexivity |].
        symmetry. apply take_ge. lia. }
      rewrite Htake. split; [rewrite length_take; lia |].
      split; [discriminate |]. split; [discriminate |].
      intros cached' w' _ [= <- <-].
      split; [reflexivity |]. intros Hle. apply take_ge. lia.
    + unfold log_error. rewrite run_emit_bind, run_ret.
      eexists _, _. split; [reflexivity |]. split; [cbn; lia |].
      split; [reflexivity |]. split; [reflexivity |]. discriminate.
  - unfold log_warning. rewrite run_emit_bind, run_ret.
    eexists _, _. split; [reflexivity |]. split; [cbn; lia |].
    split; [reflexivity |]. split; [reflexivity |]. discriminate.
Qed.

End News.


(** ** Timestamps *)

Lemma append_assoc (a b c : string) : (a +:+ b) +:+ c = a +:+ (b +:+ c).
Proof.
  induction a as [| x a IH]; [reflexivity |].
  change (String x ((a +:+ b) +:+ c) = String x (a +:+ (b +:+ c))).
  f_equal. exact IH.
Qed.

Lemma digit_value_char (d : N) :
  (d < 10)%N -> digit_value (digit_char d) = Some d.
Proof.
  intros Hd. unfold digit_value, digit_char.
  rewrite N_ascii_embedding by lia. cbv zeta.
  replace (48 <=? 48 + d)%N with true by (symmetry; apply N.leb_le; lia).
  replace (48 + d <=? 57)%N with true by (symmetry; apply N.leb_le; lia).
  cbn [andb]. f_equal. lia.
Qed.

(** Reading back the digits written by [zero_padded]. *)
Lemma read_zero_padded (w k : nat) (acc n : N) (rest : string) :
  (n < 10 ^ N.of_nat w)%N ->
  read_digits (w + k) acc (zero_padded w n +:+ rest)
  = read_digits k (acc * 10 ^ N.of_nat w + n)%N rest.
Proof.
  revert k acc n rest. induction w as [| w IH]; intros k acc n rest Hn.
  - cbn in *. f_equal. lia.
  - cbn [zero_padded]. rewrite append_assoc.
    replace (S w + k) with (w + S k) by lia.
    assert (Hpow : (10 ^ N.of_nat (S w) = 10 * 10 ^ N.of_nat w)%N).
    { rewrite Nat2N.inj_succ, N.pow_succ_r'. reflexivity. }
    rewrite IH.
    + cbn [read_digits].
      change (String (digit_char (n mod 10)%N) "" +:+ rest)
        with (String (digit_char (n mod 10)%N) rest).
      cbv beta iota.
      rewrite digit_value_char by (apply N.mod_lt; lia).
      f_equal. rewrite Hpow.
      pose proof (N.div_mod n 10 ltac:(lia)) as Hdm. lia.
    + apply N.Div0.div_lt_upper_bound. lia.
Qed.

Lemma read_zero_padded_all (w : nat) (n : N) (rest : string) :
  (n < 10 ^ N.of_nat w)%N ->
  read_digits w 0 (zero_padded w n +:+ rest) = Some (n, rest).
Proof.
  intros Hn. pose proof (read_zero_padded w 0 0 n rest Hn) as H.
  rewrite Nat.add_0_r in H. rewrite H. cbn. reflexivity.
Qed.

Lemma read_char_same (c : ascii) (rest : string) :
  read_char c (String c "" +:+ rest) = Some rest.
Proof.
  change (String c "" +:+ rest) with (String c rest).
  unfold read_char. now rewrite decide_True.
Qed.

Lemma read_fraction_dot (rest : string) :
  read_fraction ("." +:+ rest) = read_digits 6 0 rest.
Proof. reflexivity. Qed.

(** The timestamp written for a valid clock reading is read back as that
    reading: it has the ISO-8601 shape, with the UTC offset. *)
Lemma parse_isoformat (d : datetime) :
  valid_datetime d -> parse_iso8601_utc (isoformat d) = Some d.
Proof.
  destruct d as [y mo dd h mi sec us].
  unfold valid_datetime, isoformat, parse_iso8601_utc.
  cbn [year month day hour minute second microsecond].
  intros (Hy & Hmo & Hd & Hh & Hmi & Hs & Hus).
  do 5 (rewrite read_zero_padded_all by (cbn; lia); cbn [mbind option_bind];
        rewrite read_char_same; cbn [mbind option_bind]).
  rewrite read_zero_padded_all by (cbn; lia). cbn [mbind option_bind].
  destruct (decide (us = 0%N)) as [-> | Hnz].
  - cbn. reflexivity.
  - rewrite append_assoc, read_fraction_dot.
    rewrite read_zero_padded_all by (cbn; lia). cbn. reflexivity.
Qed.

(** ** why_it_moves *)

Section Stamps.

Context {W : Type} (E : collaborators W).

(** C7. The record that [why_it_moves] returns carries the change
    percentage it was given and a generation time that is the ISO-8601
    rendering, with the UTC offset, of a reading of the clock; the same
    record has been handed to [save_json] for the file
    [<symbol>_summary.json] of the directory that [ensure_directory]
    returned for "STOCK_DB/movers". *)
Theorem why_it_moves_stamps symbol exchange (c : spec_float)
    (s : state W) r s' :
  (forall w, valid_datetime (fst (utc_now E w))) ->
  run (why_it_moves E symbol exchange c) s = (Ok r, s') ->
  r !! "daily_change_percentage" = Some (VFloat c) /\
  (exists w,
      let now := fst (utc_now E w) in
      r !! "date_generated" = Some (VStr (isoformat now)) /\
      parse_iso8601_utc (isoformat now) = Some now) /\
  (exists w output_dir,
      fst (ensure_directory E "STOCK_DB/movers" w) = Ok output_dir /\
      CallSaveJson r (path_join E output_dir (symbol +:+ "_summary.json"))
        ∈ trace s').
Proof.
  intros Hclock. unfold why_it_moves. cbv zeta. intros Hrun.
  apply bind_ok_inv in Hrun as (news & s1 & _ & Hrun).
  apply bind_ok_inv in Hrun as (base & s2 & _ & Hrun).
  rewrite run_lib_bind in Hrun.
  apply bind_ok_inv in Hrun as (output_dir & s3 & Hdir & Hrun).
  apply bind_ok_inv in Hrun as ([] & s4 & Hsave & Hrun).
  unfold log_info in Hrun.
  rewrite run_emit_bind, run_ret in Hrun. injection Hrun as <- <-.
  split; [| split].
  - rewrite lookup_insert_ne by discriminate. apply lookup_insert_eq.
  - exists (world s2). cbv zeta. split.
    + apply lookup_insert_eq.
    + apply parse_isoformat, Hclock.
  - rewrite run_call in Hdir. injection Hdir as Hdir _.
    eexists _, output_dir. split; [exact Hdir |].
    apply call_trace in Hsave as [Htr _].
    rewrite trace_record_event, Htr. set_solver.
Qed.

End Stamps.


(** ** process_all_stocks *)

Section Batch.

Context {W : Type} (E : collaborators W).

(** What one iteration of the batch loop does with the outcome of its
    [try] body. *)
Lemma process_file_run news_file (s : state W) :
  run (process_file E news_file) s =
  match run (process_stock E news_file) s with
  | (Ok tt, s1) => (Ok tt, s1)
  | (Raise e, s1) =>
      (Ok tt,
       record_event (Log ERROR ("Error processing " +:+ news_file +:+ ": "
                                +:+ str_exn e)) s1)
  end.
Proof.
  unfold process_file. rewrite run_try_except.
  destruct (run (process_stock E news_file) s) as [[[] | e] s1];
    reflexivity.
Qed.

Lemma process_file_returns news_file (s : state W) :
  exists s', run (process_file E news_file) s = (Ok tt, s').
Proof.
  rewrite process_file_run.
  destruct (run (process_stock E news_file) s) as [[[] | e] s1]; eauto.
Qed.

Lemma process_files_cons news_file rest (s : state W) :
  run (process_files E (news_file :: rest)) s =
  run (process_files E rest) (snd (run (process_file E news_file) s)).
Proof.
  cbn [process_files]. rewrite run_bind.
  destruct (process_file_returns news_file s) as [s1 ->]. reflexivity.
Qed.

Lemma process_files_returns news_files (s : state W) :
  exists s', run (process_files E news_files) s = (Ok tt, s').
Proof.
  revert s. induction news_files as [| f rest IH]; intros s.
  - exists s. reflexivity.
  - rewrite process_files_cons. apply IH.
Qed.

Lemma process_files_app before after (s : state W) :
  run (process_files E (before ++ after)) s =
  run (process_files E after) (snd (run (process_files E before) s)).
Proof.
  revert s. induction before as [| f before IH]; intros s.
  - reflexivity.
  - rewrite <- app_comm_cons, !process_files_cons. apply IH.
Qed.

End Batch.

(** * Further properties *)

(** ** Effects only accumulate *)

Section Emits.

Context {W : Type}.

Lemma emits_only_ret {A} (P : event -> Prop) (a : A) :
  emits_only (W := W) P (ret a).
Proof.
  intros s r s' [= <- <-]. exists []. split; [| constructor].
  now rewrite app_nil_r.
Qed.

Lemma emits_only_raise {A} (P : event -> Prop) (e : exn) :
  emits_only (W := W) (A := A) P (raise e).
Proof.
  intros s r s' [= <- <-]. exists []. split; [| constructor].
  now rewrite app_nil_r.
Qed.

Lemma emits_only_probe {A} (P : event -> Prop) (f : W -> result A) :
  emits_only P (probe f).
Proof.
  intros s r s' [= <- <-]. exists []. split; [| constructor].
  now rewrite app_nil_r.
Qed.

Lemma emits_only_lib {A} (P : event -> Prop) (f : W -> A * W) :
  emits_only P (lib f).
Proof.
  intros s r s'. unfold run, lib. destruct (f (world s)) as [a w].
  intros [= <- <-]. exists []. split; [| constructor].
  cbn. now rewrite app_nil_r.
Qed.

Lemma emits_only_emit (P : event -> Prop) (ev : event) :
  P ev -> emits_only (W := W) P (emit ev).
Proof.
  intros HP s r s' [= <- <-]. exists [ev]. split; [reflexivity |].
  now repeat constructor.
Qed.

Lemma emits_only_call {A} (P : event -> Prop) (ev : event)
    (f : W -> result A * W) :
  P ev -> emits_only P (call ev f).
Proof.
  intros HP s r s' Hrun. apply call_trace in Hrun as [Htr _].
  exists [ev]. split; [exact Htr |]. now repeat constructor.
Qed.

Lemma emits_only_bind {A B} (P : event -> Prop) (c : M W A)
    (k : A -> M W B) :
  emits_only P c -> (forall a, emits_only P (k a)) ->
  emits_only P (bind c k).
Proof.
  intros Hc Hk s r s'. rewrite run_bind.
  destruct (run c s) as [[a | e] s1] eqn:Hrun.
  - intros Hrest. destruct (Hc _ _ _ Hrun) as (evs1 & Htr1 & HP1).
    destruct (Hk a _ _ _ Hrest) as (evs2 & Htr2 & HP2).
    exists (evs1 ++ evs2). split.
    + now rewrite Htr2, Htr1, (assoc_L app).
    + now apply Forall_app.
  - intros [= <- <-]. exact (Hc _ _ _ Hrun).
Qed.

Lemma emits_only_try_except {A} (P : event -> Prop) (c : M W A)
    (h : exn -> M W A) :
  emits_only P c -> (forall e, emits_only P (h e)) ->
  emits_only P (try_except c h).
Proof.
  intros Hc Hh s r s'. rewrite run_try_except.
  destruct (run c s) as [[a | e] s1] eqn:Hrun.
  - intros [= <- <-]. exact (Hc _ _ _ Hrun).
  - intros Hrest. destruct (Hc _ _ _ Hrun) as (evs1 & Htr1 & HP1).
    destruct (Hh e _ _ _ Hrest) as (evs2 & Htr2 & HP2).
    exists (evs1 ++ evs2). split.
    + now rewrite Htr2, Htr1, (assoc_L app).
    + now apply Forall_app.
Qed.

Lemma emits_only_weaken {A} (P Q : event -> Prop) (c : M W A) :
  (forall ev, P ev -> Q ev) -> emits_only P c -> emits_only Q c.
Proof.
  intros HPQ Hc s r s' Hrun. destruct (Hc _ _ _ Hrun) as (evs & Htr & HP).
  exists evs. split; [exact Htr |]. eapply Forall_impl; eauto.
Qed.

(** The events of a run, once the trace is known to have grown. *)
Lemma events_since_app (s s' : state W) (evs : list event) :
  trace s' = trace s ++ evs -> events_since s s' = evs.
Proof. unfold events_since. intros ->. apply drop_app_length. Qed.

End Emits.

(** ** The extraction loop, continued *)

Section ExtractionMore.

Context {W : Type} (E : collaborators W).

Lemma extract_one_cached (a : article) n (s : state W) :
  has_text a = true -> run (extract_one E a n) s = (Ok (a, S n), s).
Proof. intros Htext. unfold extract_one. now rewrite Htext. Qed.

(** X1. Articles that already carry usable text are never extracted
    again: over a list of such articles the loop calls nothing, has no
    effect, hands the list back as it is and counts every article. *)
Theorem cached_text_is_not_extracted (news : list article) n (s : state W) :
  Forall (fun a => has_text a = true) news ->
  run (extract_all E news n) s = (Ok (news, n + length news), s).
Proof.
  intros Hall. revert n. induction Hall as [| a rest Ha _ IH]; intros n.
  - cbn. rewrite Nat.add_0_r. reflexivity.
  - rewrite extract_all_cons, (extract_one_cached a n s Ha), IH.
    cbn [length]. now rewrite Nat.add_succ_r.
Qed.

Lemma extract_one_effect (a : article) n (s : state W) a' m s' :
  run (extract_one E a n) s = (Ok (a', m), s') ->
  same_but_text a a' /\ n <= m <= S n.
Proof.
  unfold extract_one. destruct (has_text a).
  { intros [= <- <- <-]. split; [now intros key _ | lia]. }
  destruct (truthy (article_url a)).
  - rewrite run_bind.
    destruct (run (call _ _) s) as [[text | e] s1]; [| discriminate].
    destruct (decide (text = not_found)); intros [= <- <- <-];
      (split; [intros key Hkey; now rewrite lookup_insert_ne | lia]).
  - intros [= <- <- <-]. split; [now intros key _ | lia].
Qed.

(** X2. The extraction loop hands back as many articles as it was
    given, in the same order, and changes no field of an article other
    than [full_article_text]. *)
Theorem extraction_writes_only_text (news : list article) n (s : state W)
    news' m s' :
  run (extract_all E news n) s = (Ok (news', m), s') ->
  Forall2 same_but_text news news'.
Proof.
  revert n s news' m s'. induction news as [| a rest IH];
    intros n s news' m s'.
  - intros [= <- _ _]. constructor.
  - rewrite extract_all_cons.
    destruct (run (extract_one E a n) s) as [[[a' k] | e] s1] eqn:Hone;
      [| discriminate].
    destruct (run (extract_all E rest k) s1) as [[[rest' j] | e] s2] eqn:Hrest;
      [| discriminate].
    intros [= <- _ _]. constructor.
    + exact (proj1 (extract_one_effect _ _ _ _ _ _ Hone)).
    + exact (IH _ _ _ _ _ Hrest).
Qed.

(** X3. The count of articles with text that the loop returns grows by
    at most one per article. *)
Theorem extraction_count_bounds (news : list article) n (s : state W)
    news' m s' :
  run (extract_all E news n) s = (Ok (news', m), s') ->
  n <= m <= n + length news.
Proof.
  revert n s news' m s'. induction news as [| a rest IH];
    intros n s news' m s'.
  - intros [= _ <- _]. cbn. lia.
  - rewrite extract_all_cons.
    destruct (run (extract_one E a n) s) as [[[a' k] | e] s1] eqn:Hone;
      [| discriminate].
    destruct (run (extract_all E rest k) s1) as [[[rest' j] | e] s2] eqn:Hrest;
      [| discriminate].
    intros [= _ <- _].
    pose proof (proj2 (extract_one_effect _ _ _ _ _ _ Hone)).
    pose proof (IH _ _ _ _ _ Hrest). cbn [length]. lia.
Qed.

(** X4. An article whose [url] field is present but empty is skipped
    even when its [link] field holds an address: line 55 falls back on
    [link] only when the key [url] is absent. *)
Theorem empty_url_hides_link (a : article) n (s : state W) :
  has_text a = false -> a !! "url" = Some "" ->
  run (extract_one E a n) s = (Ok (a, n), s).
Proof.
  intros Htext Hurl. unfold extract_one, article_url.
  rewrite Htext, Hurl. reflexivity.
Qed.

(** X5. When the key [url] is absent and [link] holds an address, the
    text is extracted from that address and stored in the article. *)
Theorem link_is_used_without_url (a : article) (address : string) n
    (s : state W) :
  has_text a = false -> a !! "url" = None -> a !! "link" = Some address ->
  address <> "" ->
  run (extract_one E a n) s =
  match run (call (CallExtractArticleText address)
                  (extract_article_text E address)) s with
  | (Ok text, s') =>
      (Ok (<["full_article_text" := text]> a,
           if decide (text = not_found) then n else S n), s')
  | (Raise e, s') => (Raise e, s')
  end.
Proof.
  intros Htext Hurl Hlink Hne. unfold extract_one, article_url.
  rewrite Htext, Hurl, Hlink. cbn [default]. unfold truthy.
  rewrite decide_False by exact Hne. rewrite run_bind.
  destruct (run (call _ _) s) as [[text | e] s1]; [| reflexivity].
  destruct (decide (text = not_found)); reflexivity.
Qed.

Lemma extract_all_emits (news : list article) n :
  emits_only (fun ev => is_extraction_call ev = true) (extract_all E news n).
Proof.
  revert n. induction news as [| a rest IH]; intros n.
  - apply emits_only_ret.
  - cbn [extract_all]. apply emits_only_bind.
    + unfold extract_one. destruct (has_text a); [apply emits_only_ret |].
      destruct (truthy (article_url a)); [| apply emits_only_ret].
      apply emits_only_bind; [now apply emits_only_call |].
      intros text. destruct (decide (text = not_found));
        apply emits_only_ret.
    + intros [a' k]. apply emits_only_bind; [apply IH |].
      intros [rest' j]. apply emits_only_ret.
Qed.

Lemma has_text_false_iff (a : article) :
  has_text a = false <-> text_missing a.
Proof.
  unfold has_text, text_missing, truthy.
  destruct (a !! "full_article_text") as [t |]; [| tauto].
  destruct (decide (t = "")) as [-> | Hne]; [cbn; tauto |].
  destruct (decide (t = not_found)) as [-> | Hnf]; cbn; [tauto |].
  split; [discriminate |]. intros [H | [H | H]]; congruence.
Qed.

(** When text extraction finds nothing for any address, no article gains
    usable text. *)
Lemma extract_all_not_found (news : list article) n (s : state W) :
  (forall url w, fst (extract_article_text E url w) = Ok not_found) ->
  Forall text_missing news ->
  exists news' s', run (extract_all E news n) s = (Ok (news', n), s').
Proof.
  intros Hext Hall. revert n s.
  induction Hall as [| a rest Ha _ IH]; intros n s.
  - eexists _, _. reflexivity.
  - rewrite extract_all_cons.
    assert (Hone : exists a' s1, run (extract_one E a n) s = (Ok (a', n), s1)).
    { unfold extract_one. apply has_text_false_iff in Ha. rewrite Ha.
      destruct (truthy (article_url a)); [| eexists _, _; reflexivity].
      rewrite run_bind, run_call, Hext.
      rewrite decide_True by reflexivity. eexists _, _. reflexivity. }
    destruct Hone as (a' & s1 & ->).
    destruct (IH n s1) as (rest' & s2 & ->). eexists _, _. reflexivity.
Qed.

(** X6. Whatever the number of articles, when none of them carries usable
    text and text extraction answers "not found" for every address,
    [process_company_data] returns the neutral-market fallback record and
    calls neither the NLP condenser nor a summarizer. *)
Theorem nothing_found_gives_fallback symbol exchange (news : list article)
    classification (s : state W) :
  (forall url w, fst (extract_article_text E url w) = Ok not_found) ->
  Forall text_missing news ->
  exists s',
    run (process_company_data E symbol exchange news classification) s
    = (Ok (record_with_period symbol exchange classification no_news_text),
       s') /\
    Forall (fun ev => is_nlp_or_summarizer_call ev = false)
           (events_since s s').
Proof.
  intros Hext Hall. rewrite process_company_data_run. cbv zeta.
  destruct news as [| a rest].
  { eexists. split; [reflexivity |].
    erewrite events_since_app
      by (cbn [trace record_event]; rewrite <- (assoc_L app); reflexivity).
    now repeat constructor. }
  match goal with
  | |- context [run (extract_all E (a :: rest) 0) ?s0] =>
      destruct (extract_all_not_found (a :: rest) 0 s0 Hext Hall)
        as (news' & s1 & Hrun)
  end.
  rewrite Hrun. eexists. split; [reflexivity |].
  destruct (extract_all_emits _ _ _ _ _ Hrun) as (evs & Htr & Hevs).
  erewrite events_since_app.
  2:{ cbn [trace record_event]. rewrite Htr. cbn [trace record_event].
      rewrite <- !(assoc_L app). reflexivity. }
  constructor; [reflexivity |]. apply Forall_app. split.
  - eapply Forall_impl; [exact Hevs |].
    intros [] Hev; try discriminate; reflexivity.
  - now repeat constructor.
Qed.

End ExtractionMore.

(** ** The summary loop *)

Section Summaries.

Context {W : Type} (E : collaborators W).

Lemma summarize_one_run symbol direction i (a : article)
    (summaries : list string) (s : state W) :
  run (summarize_one E symbol direction i a summaries) s =
  if has_condensed_text a then
    let text := default "" (a !! "condensed_text") in
    let s1 :=
      record_event (Print (str_repeat "-" 40))
        (record_event (Print text)
           (record_event (Print (str_repeat "-" 40))
              (record_event (Print (nl +:+ "Article " +:+ pretty (i + 1)
                                    +:+ ":")) s))) in
    match run (call (CallSummarizeArticle text symbol direction)
                    (summarize_article E text symbol direction)) s1 with
    | (Ok summary, s2) =>
        (Ok (if truthy summary then summaries ++ [summary] else summaries),
         record_event (Sleep 2) s2)
    | (Raise e, s2) => (Raise e, s2)
    end
  else (Ok summaries, s).
Proof.
  unfold summarize_one, has_condensed_text. cbv zeta.
  destruct (truthy (default "" (a !! "condensed_text"))); [| reflexivity].
  unfold print, sleep. do 4 emit_step. rewrite run_bind.
  destruct (run (call _ _) _) as [[summary | e] s2]; [| reflexivity].
  cbv zeta. emit_step. reflexivity.
Qed.

Lemma summarize_each_cons symbol direction i a rest summaries (s : state W) :
  run (summarize_each E symbol direction i (a :: rest) summaries) s =
  match run (summarize_one E symbol direction i a summaries) s with
  | (Ok summaries', s1) =>
      run (summarize_each E symbol direction (S i) rest summaries') s1
  | (Raise e, s1) => (Raise e, s1)
  end.
Proof. reflexivity. Qed.

(** The loop only ever appends non-empty summaries. *)
Lemma summarize_each_nonempty symbol direction i processed summaries
    (s : state W) out s' :
  Forall (fun x => truthy x = true) summaries ->
  run (summarize_each E symbol direction i processed summaries) s
  = (Ok out, s') ->
  Forall (fun x => truthy x = true) out.
Proof.
  revert i summaries s. induction processed as [| a rest IH];
    intros i summaries s Hacc.
  - intros [= <- _]. exact Hacc.
  - rewrite summarize_each_cons, summarize_one_run.
    destruct (has_condensed_text a).
    + cbv zeta.
      destruct (run (call _ _) _) as [[summary | e] s2]; [| discriminate].
      apply IH. destruct (truthy summary) eqn:Hs; [| exact Hacc].
      apply Forall_app. split; [exact Hacc |]. now repeat constructor.
    + apply IH, Hacc.
Qed.

(** X7. Every summary that the loop of lines 83-96 collects is non-empty,
    so the filter of line 98 keeps the list as it is. *)
Theorem collected_summaries_are_nonempty symbol direction processed
    (s : state W) summaries s' :
  run (summarize_each E symbol direction 0 processed []) s
  = (Ok summaries, s') ->
  Forall (fun x => x <> "") summaries /\
  filter (fun x => truthy x = true) summaries = summaries.
Proof.
  intros Hrun.
  pose proof (summarize_each_nonempty _ _ _ _ _ _ _ _ (Forall_nil_2 _) Hrun)
    as Hall.
  split.
  - eapply Forall_impl; [exact Hall |]. intros x. unfold truthy.
    destruct (decide (x = "")); [discriminate | trivial].
  - clear Hrun. induction Hall as [| x l Hx _ IH]; [reflexivity |].
    rewrite filter_cons_True by exact Hx. now rewrite IH.
Qed.

(** X8. Processed articles without condensed text are passed over: when
    no article has any, the loop calls no summarizer, does not sleep and
    has no effect at all. *)
Theorem no_condensed_text_no_call symbol direction i processed summaries
    (s : state W) :
  Forall (fun a => has_condensed_text a = false) processed ->
  run (summarize_each E symbol direction i processed summaries) s
  = (Ok summaries, s).
Proof.
  intros Hall. revert i. induction Hall as [| a rest Ha _ IH]; intros i.
  - reflexivity.
  - rewrite summarize_each_cons, summarize_one_run, Ha. apply IH.
Qed.

Lemma summarize_each_emits symbol direction i processed summaries :
  emits_only (summary_loop_event symbol direction)
    (summarize_each E symbol direction i processed summaries).
Proof.
  revert i summaries. induction processed as [| a rest IH];
    intros i summaries.
  - apply emits_only_ret.
  - cbn [summarize_each]. apply emits_only_bind; [| intros; apply IH].
    unfold summarize_one. cbv zeta.
    destruct (truthy _); [| apply emits_only_ret].
    unfold print, sleep.
    repeat (apply emits_only_bind; [now apply emits_only_emit | intros _]).
    apply emits_only_bind; [now apply emits_only_call |]. intros summary.
    apply emits_only_bind; [now apply emits_only_emit | intros _].
    apply emits_only_ret.
Qed.

Lemma summarize_news_emits symbol exchange news classification direction :
  emits_only (company_event symbol direction)
    (summarize_news E symbol exchange news classification direction).
Proof.
  unfold summarize_news.
  apply emits_only_bind; [now apply emits_only_call |]. intros processed.
  unfold print, log_info.
  do 3 (apply emits_only_bind; [now apply emits_only_emit | intros _]).
  apply emits_only_bind.
  { eapply emits_only_weaken; [| apply summarize_each_emits].
    intros [] Hev; cbn in *; tauto. }
  intros summaries. destruct (filter _ summaries).
  - apply emits_only_bind; [now apply emits_only_emit | intros _].
    apply emits_only_ret.
  - apply emits_only_bind; [now apply emits_only_call |]. intros expl.
    apply emits_only_ret.
Qed.

(** X9. [process_company_data] performs no file operation; it sleeps 2
    seconds at a time; it calls the NLP condenser and the summarizers
    for its own symbol only, and the per-article summarizer with the
    direction of its classification. *)
Theorem process_company_data_effects symbol exchange news classification :
  emits_only (company_event symbol (direction_of classification))
    (process_company_data E symbol exchange news classification).
Proof.
  unfold process_company_data. cbv zeta. unfold log_info, log_error.
  apply emits_only_bind; [now apply emits_only_emit | intros _].
  destruct news as [| a rest].
  { apply emits_only_bind; [now apply emits_only_emit | intros _].
    apply emits_only_ret. }
  apply emits_only_bind.
  { eapply emits_only_weaken; [| apply extract_all_emits].
    intros [] Hev; try discriminate; try exact I. }
  intros [news' n]. destruct (decide (n = 0)).
  - apply emits_only_bind; [now apply emits_only_emit | intros _].
    apply emits_only_ret.
  - apply emits_only_try_except; [apply summarize_news_emits |].
    intros e. apply emits_only_bind; [now apply emits_only_emit | intros _].
    apply emits_only_ret.
Qed.



End Summaries.

(** ** why_it_moves, continued *)

Section Movers.

Context {W : Type} (E : collaborators W).

Lemma get_news_articles_run symbol (s : state W) :
  let news_path := "STOCK_DB/news/" +:+ symbol +:+ "_news.json" in
  run (get_news_articles E symbol) s =
  match path_exists E news_path (world s) with
  | Raise e => (Raise e, s)
  | Ok true =>
      match load_json E news_path (world s) with
      | (Ok articles, w) =>
          (Ok (if (5 <? length articles)%nat then take 5 articles
               else articles),
           {| world := w; trace := trace s ++ [CallLoadJson news_path] |})
      | (Raise e, w) =>
          (Ok [],
           {| world := w;
              trace := (trace s ++ [CallLoadJson news_path])
                       ++ [Log ERROR ("Error loading news for " +:+ symbol
                                      +:+ ": " +:+ str_exn e)] |})
      end
  | Ok false =>
      (Ok [],
       record_event (Log WARNING ("No news file found for " +:+ symbol)) s)
  end.
Proof.
  cbv zeta. unfold get_news_articles. cbv zeta. rewrite run_probe_bind.
  destruct (path_exists E _ (world s)) as [[] | e]; cbn [negb].
  - rewrite run_try_except, run_bind, run_call.
    destruct (load_json E _ (world s)) as [[articles | e] w]; reflexivity.
  - unfold log_warning. rewrite run_emit_bind. reflexivity.
  - reflexivity.
Qed.

Lemma get_news_articles_emits symbol direction :
  emits_only (mover_event symbol direction) (get_news_articles E symbol).
Proof.
  unfold get_news_articles. cbv zeta.
  apply emits_only_bind; [apply emits_only_probe |]. intros present.
  unfold log_warning, log_error. destruct (negb present).
  - apply emits_only_bind; [now apply emits_only_emit | intros _].
    apply emits_only_ret.
  - apply emits_only_try_except.
    + apply emits_only_bind; [now apply emits_only_call |]. intros articles.
      apply emits_only_ret.
    + intros e. apply emits_only_bind; [now apply emits_only_emit | intros _].
      apply emits_only_ret.
Qed.

Lemma direction_of_classify (c : spec_float) :
  direction_of (classify_company c)
  = if SFltb float_zero c then "up" else "down".
Proof. unfold classify_company. destruct (SFltb float_zero c); reflexivity. Qed.

(** X11. [why_it_moves] loads no file but the cache of its symbol and
    prepares no directory but "STOCK_DB/movers"; whenever it asks for the
    summary of an article, the direction is "up" for a positive change
    and "down" otherwise: the direction "neutral" of line 33 is never
    used. *)
Theorem why_it_moves_effects symbol exchange (c : spec_float) :
  emits_only
    (mover_event symbol (if SFltb float_zero c then "up" else "down"))
    (why_it_moves E symbol exchange c).
Proof.
  unfold why_it_moves. cbv zeta. rewrite <- direction_of_classify.
  apply emits_only_bind; [apply get_news_articles_emits |]. intros news.
  apply emits_only_bind.
  { eapply emits_only_weaken; [| apply process_company_data_effects].
    intros [] Hev; cbn in *; tauto. }
  intros base. apply emits_only_bind; [apply emits_only_lib |]. intros now.
  apply emits_only_bind; [now apply emits_only_call |]. intros output_dir.
  apply emits_only_bind; [now apply emits_only_call |]. intros [].
  unfold log_info.
  apply emits_only_bind; [now apply emits_only_emit | intros _].
  apply emits_only_ret.
Qed.

(** The fields of a record returned by [why_it_moves]. *)
Lemma why_it_moves_fields symbol exchange (c : spec_float) (s : state W)
    r s' :
  run (why_it_moves E symbol exchange c) s = (Ok r, s') ->
  r !! "symbol" = Some (VStr symbol) /\
  r !! "exchange" = Some (VStr exchange) /\
  r !! "type" = Some (VStr (classify_company c)) /\
  exists text, r !! "summary" = Some (VStr text).
Proof.
  unfold why_it_moves. cbv zeta. intros Hrun.
  apply bind_ok_inv in Hrun as (news & s1 & _ & Hrun).
  apply bind_ok_inv in Hrun as (base & s2 & Hbase & Hrun).
  rewrite run_lib_bind in Hrun.
  apply bind_ok_inv in Hrun as (output_dir & s3 & _ & Hrun).
  apply bind_ok_inv in Hrun as ([] & s4 & _ & Hrun).
  unfold log_info in Hrun.
  rewrite run_emit_bind, run_ret in Hrun. injection Hrun as <- <-.
  rewrite !lookup_insert_ne by discriminate.
  apply process_company_data_returns in Hbase
    as [(ev & text & _ & _ & ->) | (summaries & expl & _ & -> & _)].
  - rewrite with_period_symbol, with_period_exchange, with_period_type,
      with_period_summary. eauto.
  - rewrite without_period_symbol, without_period_exchange,
      without_period_type, without_period_summary. eauto.
Qed.

(** X12. A record returned by [why_it_moves] names the symbol and the
    exchange of the call, has a text under [summary], and its [type] is
    the classification of the change: "gainer" or "loser", nothing
    else. *)
Theorem why_it_moves_record symbol exchange (c : spec_float) (s : state W)
    r s' :
  run (why_it_moves E symbol exchange c) s = (Ok r, s') ->
  r !! "symbol" = Some (VStr symbol) /\
  r !! "exchange" = Some (VStr exchange) /\
  (r !! "type" = Some (VStr "gainer") \/ r !! "type" = Some (VStr "loser")) /\
  r !! "type" = Some (VStr (classify_company c)) /\
  exists text, r !! "summary" = Some (VStr text).
Proof.
  intros Hrun.
  destruct (why_it_moves_fields _ _ _ _ _ _ Hrun)
    as (Hsym & Hex & Hty & Hsum).
  repeat (split; [assumption |]). split; [| split; assumption].
  rewrite Hty. unfold classify_company.
  destruct (SFltb float_zero c); [left | right]; reflexivity.
Qed.


Lemma extract_all_raise_last (news : list article) n (s : state W) e s' :
  run (extract_all E news n) s = (Raise e, s') ->
  exists url, last (trace s') = Some (CallExtractArticleText url).
Proof.
  revert n s. induction news as [| a rest IH]; intros n s.
  - discriminate.
  - rewrite extract_all_cons.
    destruct (run (extract_one E a n) s) as [[[a' k] | e1] s1] eqn:Hone.
    + destruct (run (extract_all E rest k) s1) as [[[rest' j] | e2] s2]
        eqn:Hrest; [discriminate |].
      intros [= <- <-]. exact (IH _ _ Hrest).
    + intros [= <- <-]. revert Hone. unfold extract_one.
      destruct (has_text a); [discriminate |].
      destruct (truthy (article_url a)); [| discriminate].
      rewrite run_bind.
      destruct (run (call _ _) s) as [[text | e2] s2] eqn:Hcall.
      * destruct (decide (text = not_found)); discriminate.
      * intros [= <- <-]. apply call_trace in Hcall as [Htr _].
        eexists. rewrite Htr. apply last_snoc.
Qed.

(** X14. [why_it_moves] can fail at four places only: the existence
    check of the cache file, text extraction, the preparation of the
    output directory and the writing of the summary. When the existence
    check raises, nothing has happened yet; otherwise the failing call is
    the last effect, so nothing is logged or written after the
    failure. *)
Theorem why_it_moves_failure_points symbol exchange (c : spec_float)
    (s : state W) e s' :
  run (why_it_moves E symbol exchange c) s = (Raise e, s') ->
  (path_exists E ("STOCK_DB/news/" +:+ symbol +:+ "_news.json") (world s)
   = Raise e /\ s' = s)
  \/
  (exists ev, last (trace s') = Some ev /\ is_failure_point ev = true).
Proof.
  unfold why_it_moves. cbv zeta. rewrite run_bind.
  pose proof (get_news_articles_run symbol s) as Hnews. cbv zeta in Hnews.
  destruct (run (get_news_articles E symbol) s) as [[news | e0] s1].
  2:{ intros [= <- <-]. left. revert Hnews.
      destruct (path_exists E _ (world s)) as [[] | e1].
      - destruct (load_json E _ (world s)) as [[? | ?] ?]; discriminate.
      - discriminate.
      - intros [= <- <-]. split; reflexivity. }
  clear Hnews. rewrite run_bind. intros Hrun. right. revert Hrun.
  destruct (run (process_company_data E symbol exchange news _) s1)
    as [[base | e1] s2] eqn:Hbase.
  - rewrite run_lib_bind, run_bind.
    destruct (run (call (CallEnsureDirectory _) _) _)
      as [[output_dir | e2] s3] eqn:Hdir.
    + rewrite run_bind.
      destruct (run (call (CallSaveJson _ _) _) s3) as [[[] | e3] s4] eqn:Hsave.
      * unfold log_info. rewrite run_emit_bind. discriminate.
      * intros [= <- <-]. apply call_trace in Hsave as [Htr _].
        eexists. rewrite Htr. split; [apply last_snoc | reflexivity].
    + intros [= <- <-]. apply call_trace in Hdir as [Htr _].
      eexists. rewrite Htr. split; [apply last_snoc | reflexivity].
  - intros [= <- <-]. rewrite process_company_data_run in Hbase.
    cbv zeta in Hbase. destruct news as [| a rest]; [discriminate |].
    destruct (run (extract_all E (a :: rest) 0) _)
      as [[[news' n] | e2] s3] eqn:Hex.
    + destruct n; [discriminate |].
      destruct (run (summarize_news _ _ _ _ _ _) s3) as [[? | ?] ?];
        discriminate.
    + injection Hbase as <- <-.
      destruct (extract_all_raise_last _ _ _ _ _ Hex) as [url Hlast].
      eexists. split; [exact Hlast | reflexivity].
Qed.

(** X15. A cache that is absent or cannot be loaded is no error for
    [why_it_moves]: the record it returns is the neutral-market fallback
    with period "day", and neither text extraction, nor the NLP
    condenser, nor a summarizer has been called. *)
Theorem missing_cache_gives_fallback symbol exchange (c : spec_float)
    (s : state W) r s' :
  let news_path := "STOCK_DB/news/" +:+ symbol +:+ "_news.json" in
  path_exists E news_path (world s) = Ok false \/
  (exists e w, load_json E news_path (world s) = (Raise e, w)) ->
  run (why_it_moves E symbol exchange c) s = (Ok r, s') ->
  r !! "summary" = Some (VStr no_news_text) /\
  r !! "period" = Some (VStr "day") /\
  Forall (fun ev => is_extraction_call ev = false /\
                    is_nlp_or_summarizer_call ev = false)
         (events_since s s').
Proof.
  cbv zeta. intros Hcache Hrun.
  destruct (why_it_moves_effects symbol exchange c _ _ _ Hrun)
    as (evs & Htr & _).
  rewrite (events_since_app _ _ _ Htr).
  revert Hrun Htr. unfold why_it_moves. cbv zeta. rewrite run_bind.
  pose proof (get_news_articles_run symbol s) as Hnews. cbv zeta in Hnews.
  destruct (run (get_news_articles E symbol) s) as [[news | e0] s1];
    [| discriminate].
  assert (Hempty : news = [] /\
             exists evs1,
               trace s1 = trace s ++ evs1 /\
               Forall (fun ev => is_extraction_call ev = false /\
                                 is_nlp_or_summarizer_call ev = false) evs1).
  { revert Hnews. destruct Hcache as [-> | (e & w & Hload)].
    - intros [= -> ->]. split; [reflexivity |].
      eexists. split; [reflexivity |]. now repeat constructor.
    - rewrite Hload.
      destruct (path_exists E _ (world s)) as [[] | e1].
      + intros [= -> ->]. split; [reflexivity |]. eexists.
        split; [cbn [trace]; rewrite <- (assoc_L app); reflexivity |].
        now repeat constructor.
      + intros [= -> ->]. split; [reflexivity |].
        eexists. split; [reflexivity |]. now repeat constructor.
      + discriminate. }
  clear Hnews. destruct Hempty as (-> & evs1 & Htr1 & Hevs1).
  rewrite run_bind, process_company_data_run. cbv beta iota zeta.
  rewrite run_lib_bind. intros Hrun.
  apply bind_ok_inv in Hrun as (output_dir & s3 & Hdir & Hrun).
  apply bind_ok_inv in Hrun as ([] & s4 & Hsave & Hrun).
  unfold log_info in Hrun.
  rewrite run_emit_bind, run_ret in Hrun. injection Hrun as <- <-.
  apply call_trace in Hdir as [Htr3 _].
  apply call_trace in Hsave as [Htr4 _].
  cbn [trace record_event]. rewrite Htr4, Htr3. cbn [trace record_event].
  rewrite Htr1, <- !(assoc_L app). intros Hevs.
  apply app_inv_head in Hevs. subst evs.
  split; [| split].
  - rewrite !lookup_insert_ne by discriminate. apply with_period_summary.
  - rewrite !lookup_insert_ne by discriminate. apply with_period_period.
  - apply Forall_app. split; [exact Hevs1 |]. now repeat constructor.
Qed.

End Movers.

(** ** process_all_stocks, continued *)

Section BatchMore.

Context {W : Type} (E : collaborators W).

Lemma getitem_emits (P : event -> Prop) (r : record) (key : string) :
  emits_only (W := W) P (getitem r key).
Proof.
  unfold getitem. destruct (r !! key);
    [apply emits_only_ret | apply emits_only_raise].
Qed.

Lemma slice_to_emits (P : event -> Prop) (n : nat) (v : pyvalue) :
  emits_only (W := W) P (slice_to n v).
Proof.
  unfold slice_to. destruct v; [apply emits_only_ret | apply emits_only_raise].
Qed.

(** An iteration of the batch first announces the symbol it derived from
    the file name; its other effects come after. *)
Lemma process_file_starts news_file (s : state W) :
  exists change evs,
    trace (snd (run (process_file E news_file) s))
    = trace s
      ++ Log INFO ("Processing " +:+ str_replace "_news" "" (stem E news_file)
                   +:+ " with change " +:+ change +:+ "%") :: evs.
Proof.
  unfold process_file. rewrite run_try_except.
  unfold process_stock. cbv zeta. rewrite run_lib_bind.
  unfold log_info at 1. rewrite run_emit_bind.
  set (c := fst (random_uniform E float_minus_5 float_5 (world s))).
  set (s0 := record_event _ _).
  match goal with
  | |- context [run ?rest s0] =>
      assert (Hrest : emits_only (fun _ => True) rest)
  end.
  { unfold print, sleep.
    apply emits_only_bind.
    { eapply emits_only_weaken; [| apply (why_it_moves_effects E)].
      trivial. }
    intros summary.
    apply emits_only_bind; [now apply emits_only_emit | intros _].
    apply emits_only_bind; [apply getitem_emits | intros ty].
    apply emits_only_bind; [now apply emits_only_emit | intros _].
    apply emits_only_bind; [apply getitem_emits | intros text].
    apply emits_only_bind; [apply slice_to_emits | intros preview].
    apply emits_only_bind; [now apply emits_only_emit | intros _].
    now apply emits_only_emit. }
  match goal with
  | |- context [run ?rest s0] =>
      destruct (run rest s0) as [[[] | e] s1] eqn:Hrun
  end.
  - destruct (Hrest _ _ _ Hrun) as (evs & Htr & _).
    exists (format_2f E c), evs. cbn [snd]. rewrite Htr.
    subst s0. cbn [trace record_event]. now rewrite <- (assoc_L app).
  - destruct (Hrest _ _ _ Hrun) as (evs & Htr & _).
    exists (format_2f E c), (evs ++ [Log ERROR ("Error processing "
                                     +:+ news_file +:+ ": " +:+ str_exn e)]).
    unfold log_error. rewrite run_emit. cbn [snd trace record_event].
    rewrite Htr. subst s0. cbn [trace record_event].
    now rewrite <- !(assoc_L app).
Qed.

Lemma process_files_grows news_files (s : state W) :
  exists evs,
    trace (snd (run (process_files E news_files) s)) = trace s ++ evs.
Proof.
  revert s. induction news_files as [| f rest IH]; intros s.
  - exists []. cbn. now rewrite app_nil_r.
  - rewrite process_files_cons.
    destruct (process_file_starts f s) as (change & evs1 & Htr1).
    destruct (IH (snd (run (process_file E f) s))) as (evs2 & Htr2).
    eexists. rewrite Htr2, Htr1, <- (assoc_L app). reflexivity.
Qed.

(** X19. Every news file of the batch is taken up: whatever happened to
    the files before it, the batch logs that it is processing the symbol
    derived from the file name. *)
Theorem every_news_file_is_started news_files (s : state W) news_file :
  news_file ∈ news_files ->
  exists change,
    Log INFO ("Processing " +:+ str_replace "_news" "" (stem E news_file)
              +:+ " with change " +:+ change +:+ "%")
    ∈ events_since s (snd (run (process_files E news_files) s)).
Proof.
  revert s. induction news_files as [| f rest IH]; intros s Hin.
  - now apply elem_of_nil in Hin.
  - rewrite process_files_cons.
    destruct (process_file_starts f s) as (change & evs1 & Htr1).
    destruct (process_files_grows rest (snd (run (process_file E f) s)))
      as (evs2 & Htr2).
    apply elem_of_cons in Hin as [-> | Hin].
    + exists change. erewrite events_since_app.
      2:{ rewrite Htr2, Htr1, <- (assoc_L app). reflexivity. }
      set_solver.
    + destruct (IH (snd (run (process_file E f) s)) Hin)
        as (change' & Hmem).
      exists change'.
      rewrite (events_since_app _ _ _ Htr2) in Hmem.
      erewrite events_since_app.
      2:{ rewrite Htr2, Htr1, <- (assoc_L app). reflexivity. }
      set_solver.
Qed.

End BatchMore.

(** ** process_all_stocks: isolation of failures *)

Section BatchClaim.

Context {W : Type} (E : collaborators W).

(** The batch, step by step: the check of the news directory, the
    listing of the news files, then the loop. *)
Lemma process_all_stocks_run (s : state W) :
  run (process_all_stocks E) s =
  match path_exists E "STOCK_DB/news" (world s) with
  | Raise e => (Raise e, s)
  | Ok false => (Ok tt, record_event (Log ERROR "News directory not found") s)
  | Ok true =>
      match glob E "STOCK_DB/news" "*_news.json" (world s) with
      | Raise e => (Raise e, s)
      | Ok news_files =>
          run (process_files E news_files)
              (record_event
                 (Log INFO ("Found " +:+ pretty (length news_files)
                            +:+ " stocks with news data")) s)
      end
  end.
Proof.
  unfold process_all_stocks. cbv zeta. rewrite run_probe_bind.
  destruct (path_exists E _ (world s)) as [[] | e]; cbn [negb].
  - rewrite run_probe_bind.
    destruct (glob E _ _ (world s)) as [news_files | e]; [| reflexivity].
    unfold log_info. now rewrite run_emit_bind.
  - reflexivity.
  - reflexivity.
Qed.

(** A record returned by [why_it_moves] has been handed to [save_json]
    for the summary file of the symbol. *)
Lemma why_it_moves_saves symbol exchange (c : spec_float) (s : state W)
    r s' :
  run (why_it_moves E symbol exchange c) s = (Ok r, s') ->
  exists output_dir,
    CallSaveJson r (path_join E output_dir (symbol +:+ "_summary.json"))
    ∈ trace s'.
Proof.
  unfold why_it_moves. cbv zeta. intros Hrun.
  apply bind_ok_inv in Hrun as (news & s1 & _ & Hrun).
  apply bind_ok_inv in Hrun as (base & s2 & _ & Hrun).
  rewrite run_lib_bind in Hrun.
  apply bind_ok_inv in Hrun as (output_dir & s3 & _ & Hrun).
  apply bind_ok_inv in Hrun as ([] & s4 & Hsave & Hrun).
  unfold log_info in Hrun.
  rewrite run_emit_bind, run_ret in Hrun. injection Hrun as <- <-.
  exists output_dir. apply call_trace in Hsave as [Htr _].
  rewrite trace_record_event, Htr. set_solver.
Qed.

(** Once [why_it_moves] has returned, the iteration for the news file
    completes and keeps every effect of [why_it_moves]. *)
Lemma process_stock_completes news_file (s : state W) r s1 :
  let symbol := str_replace "_news" "" (stem E news_file) in
  let daily_change := fst (random_uniform E float_minus_5 float_5 (world s)) in
  let s0 :=
    record_event
      (Log INFO ("Processing " +:+ symbol +:+ " with change "
                 +:+ format_2f E daily_change +:+ "%"))
      {| world := snd (random_uniform E float_minus_5 float_5 (world s));
         trace := trace s |} in
  run (why_it_moves E symbol "NASDAQ" daily_change) s0 = (Ok r, s1) ->
  exists s' evs,
    run (process_stock E news_file) s = (Ok tt, s') /\
    trace s' = trace s1 ++ evs.
Proof.
  cbv zeta. intros Hrun. unfold process_stock. cbv zeta.
  rewrite run_lib_bind. unfold log_info, print, sleep.
  rewrite run_emit_bind, run_bind, Hrun.
  destruct (why_it_moves_fields _ _ _ _ _ _ _ Hrun)
    as (_ & _ & Hty & text & Hsum).
  rewrite run_emit_bind. unfold getitem at 1. rewrite Hty.
  rewrite run_bind, run_ret, run_emit_bind.
  unfold getitem. rewrite Hsum. rewrite run_bind, run_ret.
  unfold slice_to. rewrite run_bind, run_ret, run_emit_bind, run_emit.
  eexists _, _. split; [reflexivity |].
  cbn [trace record_event]. rewrite <- !(assoc_L app). reflexivity.
Qed.

(** C8. Once the news directory has been found and listed,
    [process_all_stocks] runs the loop over the listed files and returns
    without an exception. An exception raised while one news file is
    processed is logged and ends that iteration only: every file is
    processed in turn, in the state left by the files before it, whether
    or not these failed; and a symbol for which [why_it_moves] returns a
    record in that state has this record handed to [save_json] for its
    summary file, whatever happened to the other files. *)
Theorem process_all_stocks_isolates_failures :
  (forall (s : state W) news_files,
      path_exists E "STOCK_DB/news" (world s) = Ok true ->
      glob E "STOCK_DB/news" "*_news.json" (world s) = Ok news_files ->
      run (process_all_stocks E) s
      = run (process_files E news_files)
            (record_event
               (Log INFO ("Found " +:+ pretty (length news_files)
                          +:+ " stocks with news data")) s) /\
      exists s', run (process_all_stocks E) s = (Ok tt, s')) /\
  (forall news_file (s : state W) e s1,
      run (process_stock E news_file) s = (Raise e, s1) ->
      run (process_file E news_file) s
      = (Ok tt,
         record_event (Log ERROR ("Error processing " +:+ news_file
                                  +:+ ": " +:+ str_exn e)) s1)) /\
  (forall news_file (s : state W) s1,
      run (process_stock E news_file) s = (Ok tt, s1) ->
      run (process_file E news_file) s = (Ok tt, s1)) /\
  (forall before news_file after (s : state W),
      run (process_files E (before ++ news_file :: after)) s =
      run (process_files E after)
          (snd (run (process_file E news_file)
                    (snd (run (process_files E before) s))))) /\
  (forall (s : state W) before news_file after r s1,
      path_exists E "STOCK_DB/news" (world s) = Ok true ->
      glob E "STOCK_DB/news" "*_news.json" (world s)
      = Ok (before ++ news_file :: after) ->
      let reached :=
        snd (run (process_files E before)
               (record_event
                  (Log INFO ("Found "
                             +:+ pretty (length (before ++ news_file :: after))
                             +:+ " stocks with news data")) s)) in
      let symbol := str_replace "_news" "" (stem E news_file) in
      let daily_change :=
        fst (random_uniform E float_minus_5 float_5 (world reached)) in
      let s0 :=
        record_event
          (Log INFO ("Processing " +:+ symbol +:+ " with change "
                     +:+ format_2f E daily_change +:+ "%"))
          {| world :=
               snd (random_uniform E float_minus_5 float_5 (world reached));
             trace := trace reached |} in
      run (why_it_moves E symbol "NASDAQ" daily_change) s0 = (Ok r, s1) ->
      exists s' output_dir,
        run (process_all_stocks E) s = (Ok tt, s') /\
        CallSaveJson r (path_join E output_dir (symbol +:+ "_summary.json"))
        ∈ trace s').
Proof.
  split; [| split; [| split; [| split]]].
  - intros s news_files Hdir Hglob.
    rewrite process_all_stocks_run, Hdir, Hglob.
    split; [reflexivity | apply process_files_returns].
  - intros f s e s1 Hbody. now rewrite process_file_run, Hbody.
  - intros f s s1 Hbody. now rewrite process_file_run, Hbody.
  - intros before f after s.
    now rewrite process_files_app, process_files_cons.
  - intros s before f after r s1 Hdir Hglob. cbv zeta. intros Hwhy.
    rewrite process_all_stocks_run, Hdir, Hglob.
    rewrite process_files_app, process_files_cons.
    destruct (process_stock_completes f _ r s1 Hwhy)
      as (s2 & evs & Hstock & Htr2).
    rewrite process_file_run, Hstock. cbn [snd].
    destruct (process_files_returns E after s2) as (s3 & Hrest).
    destruct (process_files_grows E after s2) as (evs3 & Htr3).
    rewrite Hrest in Htr3 |- *. cbn [snd] in Htr3.
    destruct (why_it_moves_saves _ _ _ _ _ _ Hwhy) as (output_dir & Hmem).
    exists s3, output_dir. split; [reflexivity |].
    rewrite Htr3, Htr2. set_solver.
Qed.

End BatchClaim.

(** ** Symbols and file names *)

Lemma prefix_other_head (c : ascii) (rest : string) :
  c <> "_"%char -> String.prefix "_news" (String c rest) = false.
Proof.
  intros Hc.
  change (String.prefix "_news" (String c rest))
    with (if ascii_dec "_" c then String.prefix "news" rest else false).
  destruct (ascii_dec "_" c) as [Heq | _]; [| reflexivity].
  now destruct Hc.
Qed.

Lemma str_replace_symbol (symbol : string) :
  no_underscore symbol = true ->
  str_replace "_news" "" (symbol +:+ "_news") = symbol.
Proof.
  unfold str_replace. induction symbol as [| c rest IH]; intros Hsym.
  - reflexivity.
  - cbn [no_underscore] in Hsym. apply andb_prop in Hsym as [Hc Hrest].
    destruct (decide (c = "_"%char)) as [| Hne]; [discriminate |].
    change (String c rest +:+ "_news") with (String c (rest +:+ "_news")).
    cbn [str_replace_from].
    rewrite (prefix_other_head c (rest +:+ "_news") Hne).
    f_equal. exact (IH Hrest).
Qed.

(** X16. The symbol that the batch derives from the news file of a
    symbol is that symbol again, provided the symbol contains no
    underscore: the batch then loads the very file it found. *)
Theorem derived_symbol_round_trip {W} (E : collaborators W)
    (symbol : string) :
  no_underscore symbol = true ->
  stem E (symbol +:+ "_news.json") = symbol +:+ "_news" ->
  "STOCK_DB/news/"
    +:+ str_replace "_news" "" (stem E (symbol +:+ "_news.json"))
    +:+ "_news.json"
  = "STOCK_DB/news/" +:+ symbol +:+ "_news.json".
Proof.
  intros Hsym Hstem. now rewrite Hstem, str_replace_symbol.
Qed.

(** ** classify_company, continued *)

(** X17. [classify_company] answers "gainer" exactly for the positive
    finite floats and for positive infinity; every other float, NaN
    included, is a "loser". *)
Theorem classify_company_gainer_iff (c : spec_float) :
  (classify_company c = "gainer" <->
   (exists m e, c = S754_finite false m e) \/ c = S754_infinity false) /\
  (classify_company c = "gainer" \/ classify_company c = "loser").
Proof.
  unfold classify_company.
  destruct c as [[] | [] | | [] m e];
    cbv [SFltb SFcompare float_zero];
    (split;
     [ split;
       [ intros H;
         first [discriminate H | left; eexists _, _; reflexivity
               | right; reflexivity]
       | intros [(m' & e' & H) | H]; first [discriminate H | reflexivity] ]
     | first [left; reflexivity | right; reflexivity] ]).
Qed.

(** ** Timestamps, continued *)

(** X18. Two valid clock readings with the same timestamp are the same
    reading: nothing of the reading is lost in [date_generated]. *)
Theorem isoformat_injective (d1 d2 : datetime) :
  valid_datetime d1 -> valid_datetime d2 ->
  isoformat d1 = isoformat d2 -> d1 = d2.
Proof.
  intros H1 H2 Heq.
  pose proof (parse_isoformat d1 H1) as P1.
  pose proof (parse_isoformat d2 H2) as P2.
  rewrite Heq, P2 in P1. now injection P1.
Qed.

(** * Runs on explicit inputs *)

Import Demo.

Lemma returned_record_identifies_call_witness :
  exists r s',
    run (process_company_data (env healthy) "AAPL" "NASDAQ"
           [article_with_url] "gainer") start = (Ok r, s') /\
    r !! "symbol" = Some (VStr "AAPL") /\
    r !! "exchange" = Some (VStr "NASDAQ") /\
    r !! "type" = Some (VStr "gainer").
Proof.
  destruct (run (process_company_data (env healthy) "AAPL" "NASDAQ"
                   [article_with_url] "gainer") start)
    as [[r | e] s'] eqn:Hrun.
  - exists r, s'. split; [reflexivity |].
    exact (returned_record_identifies_call _ _ _ _ _ _ _ _ Hrun).
  - exfalso.
    assert (Hok : raised (run (process_company_data (env healthy) "AAPL"
                     "NASDAQ" [article_with_url] "gainer") start) = None)
      by (vm_compute; reflexivity).
    rewrite Hrun in Hok. discriminate Hok.
Defined.

Lemma period_on_every_fallback_witness :
  exists r s',
    run (process_company_data (env mute) "AAPL" "NASDAQ"
           [article_with_url] "gainer") start = (Ok r, s') /\
    ((exists ev text,
         fallback_of "AAPL" ev text /\
         last (trace s') = Some ev /\
         r !! "summary" = Some (VStr text) /\
         r !! "period" = Some (VStr "day"))
     \/
     (exists summaries explanation,
         last (trace s') = Some (CallSummarizeArticles summaries "AAPL") /\
         r !! "summary" = Some (VStr explanation) /\
         r !! "period" = None)).
Proof.
  destruct (run (process_company_data (env mute) "AAPL" "NASDAQ"
                   [article_with_url] "gainer") start)
    as [[r | e] s'] eqn:Hrun.
  - exists r, s'. split; [reflexivity |].
    exact (period_on_every_fallback _ _ _ _ _ _ _ _ Hrun).
  - exfalso.
    assert (Hok : raised (run (process_company_data (env mute) "AAPL"
                     "NASDAQ" [article_with_url] "gainer") start) = None)
      by (vm_compute; reflexivity).
    rewrite Hrun in Hok. discriminate Hok.
Defined.

(** C1 as stated fails: the "no valid summaries" record and the "error
    generating the summary" record both carry [period]. *)
Lemma period_present_on_late_fallbacks :
  (last_event (run (process_company_data (env mute) "AAPL" "NASDAQ"
                      [article_with_url] "gainer") start)
   = Some (Log INFO "No valid summaries generated for AAPL") /\
   returned_field "summary"
     (run (process_company_data (env mute) "AAPL" "NASDAQ"
             [article_with_url] "gainer") start)
   = Some (VStr "No valid article summaries could be generated.") /\
   returned_field "period"
     (run (process_company_data (env mute) "AAPL" "NASDAQ"
             [article_with_url] "gainer") start)
   = Some (VStr "day")) /\
  (last_event (run (process_company_data (env broken_summarizer) "AAPL"
                      "NASDAQ" [article_with_url] "gainer") start)
   = Some (Log ERROR
             "Error summarizing articles for AAPL: rate limit exceeded") /\
   returned_field "summary"
     (run (process_company_data (env broken_summarizer) "AAPL" "NASDAQ"
             [article_with_url] "gainer") start)
   = Some (VStr "There was an error generating the summary.") /\
   returned_field "period"
     (run (process_company_data (env broken_summarizer) "AAPL" "NASDAQ"
             [article_with_url] "gainer") start)
   = Some (VStr "day")).
Proof. repeat split; vm_compute; reflexivity. Qed.

(** C2 as stated fails: an exception raised by text extraction is not
    caught. *)
Lemma extraction_error_escapes :
  fst (run (process_company_data (env broken_extractor) "AAPL" "NASDAQ"
              [article_with_url] "gainer") start)
  = Raise (Exception "connection refused").
Proof. vm_compute. reflexivity. Qed.

Lemma exceptions_caught_after_extraction_witness :
  fst (run (process_company_data (env broken_summarizer) "AAPL" "NASDAQ"
              [article_with_url] "gainer") start)
  = Ok {[ "symbol" := VStr "AAPL";
          "exchange" := VStr "NASDAQ";
          "type" := VStr "gainer";
          "period" := VStr "day";
          "summary" := VStr "There was an error generating the summary." ]}.
Proof.
  pose (s0 := record_event
                (Log INFO ("Processing data for symbol: " +:+ "AAPL"
                           +:+ " - Classified as " +:+ "gainer")) start).
  pose (s1 := snd (run (extract_all (env broken_summarizer)
                          [article_with_url] 0) s0)).
  pose (s2 := snd (run (summarize_news (env broken_summarizer) "AAPL"
                          "NASDAQ" [article_extracted] "gainer"
                          (direction_of "gainer")) s1)).
  rewrite (proj2 (proj2 (exceptions_caught_after_extraction
                           (env broken_summarizer) "AAPL" "NASDAQ"
                           article_with_url [] "gainer" start))
             [article_extracted] 0 s1 (Exception "rate limit exceeded") s2).
  - reflexivity.
  - vm_compute. reflexivity.
  - vm_compute. reflexivity.
Defined.

Lemma article_without_address_is_skipped_witness :
  run (extract_all (env healthy)
         ([article_with_url] ++ article_without_url :: [article_with_text]) 0)
      start
  = (Ok ([article_extracted; article_without_url; article_with_text], 2),
     {| world := []; trace := [CallExtractArticleText "http://news/1"] |}).
Proof.
  rewrite (article_without_address_is_skipped (env healthy)
             article_without_url [article_with_url] [article_with_text]
             0 start).
  - vm_compute. reflexivity.
  - vm_compute. reflexivity.
  - left. vm_compute. reflexivity.
  - right. vm_compute. reflexivity.
Defined.

(** C5 fails on the code: an extracted text that is empty is counted as
    usable text (line 59 compares with the "not found" marker only), so
    the NLP condenser is invoked and the record is not the
    neutral-market fallback. *)
Theorem empty_extracted_text_counts_as_text :
  filter (fun ev => is_nlp_or_summarizer_call ev = true)
    (trace (snd (run (process_company_data (env empty_extractor) "AAPL"
                        "NASDAQ" [article_with_url] "gainer") start)))
  = [CallProcessArticlesBatch
       [<["full_article_text" := ""]> article_with_url] "AAPL" "AAPL"] /\
  returned_field "summary"
    (run (process_company_data (env empty_extractor) "AAPL" "NASDAQ"
            [article_with_url] "gainer") start)
  = Some (VStr "No valid article summaries could be generated.") /\
  returned_field "summary"
    (run (process_company_data (env empty_extractor) "AAPL" "NASDAQ"
            [article_with_url] "gainer") start)
  <> Some (VStr no_news_text).
Proof.
  split; [vm_compute; reflexivity |].
  split; [vm_compute; reflexivity |].
  vm_compute. discriminate.
Qed.

Lemma get_news_articles_at_most_five_witness :
  exists articles s',
    run (get_news_articles (env two_caches) "AAPL") start
    = (Ok articles, s') /\
    length articles <= 5 /\
    articles = take 5 six_articles.
Proof.
  destruct (proj2 (get_news_articles_at_most_five (env two_caches) "AAPL"
                     start) true)
    as (articles & s' & Hrun & Hlen & _ & _ & Hcached).
  { vm_compute. reflexivity. }
  exists articles, s'. split; [exact Hrun |]. split; [exact Hlen |].
  apply (Hcached six_articles []); vm_compute; reflexivity.
Defined.

(** C6 as stated fails: for a symbol whose cache file name is longer than
    a file name can be, the existence check of line 19 raises, and
    [get_news_articles] with it. *)
Lemma get_news_articles_raises_on_long_name :
  fst (run (get_news_articles (env healthy) (str_repeat "A" 300)) start)
  = Raise (Exception "[Errno 36] File name too long").
Proof. vm_compute. reflexivity. Qed.

(** A cache that cannot be read gives no article and no error. *)
Example unreadable_cache :
  fst (run (get_news_articles (env two_caches) "MSFT") start) = Ok [].
Proof. vm_compute. reflexivity. Qed.

Lemma why_it_moves_stamps_witness :
  exists r s',
    run (why_it_moves (env healthy) "AAPL" "NASDAQ" float_minus_5) start
    = (Ok r, s') /\
    r !! "daily_change_percentage" = Some (VFloat float_minus_5) /\
    r !! "date_generated" = Some (VStr (isoformat clock)).
Proof.
  assert (Hclock : forall w, valid_datetime (fst (utc_now (env healthy) w))).
  { intros w. vm_compute. repeat split; discriminate. }
  destruct (run (why_it_moves (env healthy) "AAPL" "NASDAQ" float_minus_5)
              start) as [[r | e] s'] eqn:Hrun.
  - destruct (why_it_moves_stamps (env healthy) _ _ _ _ _ _ Hclock Hrun)
      as (Hchange & (w & Hdate & _) & _).
    exists r, s'. split; [reflexivity |]. split; [exact Hchange |].
    exact Hdate.
  - exfalso.
    assert (Hok : raised (run (why_it_moves (env healthy) "AAPL" "NASDAQ"
                                 float_minus_5) start) = None)
      by (vm_compute; reflexivity).
    rewrite Hrun in Hok. discriminate Hok.
Defined.

(** The example of the specification: no cached article for AAPL and a
    negative change give a "loser" record with the fallback text, written
    to the summary file of AAPL. *)
Example why_it_moves_without_news :
  returned_field "type"
    (run (why_it_moves (env healthy) "AAPL" "NASDAQ" float_minus_5) start)
  = Some (VStr "loser") /\
  returned_field "summary"
    (run (why_it_moves (env healthy) "AAPL" "NASDAQ" float_minus_5) start)
  = Some (VStr no_news_text) /\
  returned_field "date_generated"
    (run (why_it_moves (env healthy) "AAPL" "NASDAQ" float_minus_5) start)
  = Some (VStr "2024-03-09T14:05:07.004200+00:00") /\
  (world (snd (run (why_it_moves (env healthy) "AAPL" "NASDAQ"
                      float_minus_5) start))).*1
  = ["STOCK_DB/movers/AAPL_summary.json"].
Proof. repeat split; vm_compute; reflexivity. Qed.

Lemma process_all_stocks_isolates_failures_witness :
  exists r s' output_dir,
    run (process_all_stocks (env locked_output)) start = (Ok tt, s') /\
    CallSaveJson r
      (path_join (env locked_output) output_dir
         (str_replace "_news" "" (stem (env locked_output) "MSFT_news.json")
          +:+ "_summary.json"))
    ∈ trace s'.
Proof.
  pose proof
    (fun r s1 =>
       proj2 (proj2 (proj2 (proj2 (process_all_stocks_isolates_failures
                                     (env locked_output)))))
         start ["AAPL_news.json"] "MSFT_news.json" [] r s1 eq_refl eq_refl)
    as Hsaved.
  cbv zeta in Hsaved.
  match type of Hsaved with
  | forall r s1, ?out = _ -> _ =>
      assert (Hok : raised out = None) by (vm_compute; reflexivity);
      destruct out as [[r | e] s1] eqn:Hrun; [| discriminate Hok]
  end.
  destruct (Hsaved r s1 eq_refl) as (s' & output_dir & Hbatch & Hmem).
  exists r, s', output_dir. split; assumption.
Defined.

(** A batch in which the summary of AAPL cannot be written: the failure
    is logged, the batch returns, and the summary of MSFT is written. *)
Example batch_with_one_failure :
  fst (run (process_all_stocks (env locked_output)) start) = Ok tt /\
  (world (snd (run (process_all_stocks (env locked_output)) start))).*1
  = ["STOCK_DB/movers/MSFT_summary.json"] /\
  filter (fun ev => is_error_log ev = true)
    (trace (snd (run (process_all_stocks (env locked_output)) start)))
  = [Log ERROR "Error processing AAPL_news.json: Permission denied"].
Proof. repeat split; vm_compute; reflexivity. Qed.

(** ** Witnesses of the further properties *)

Lemma cached_text_is_not_extracted_witness :
  run (extract_all (env broken_extractor)
         [article_with_text; article_with_text] 0) start
  = (Ok ([article_with_text; article_with_text],
         0 + length [article_with_text; article_with_text]), start).
Proof.
  apply (cached_text_is_not_extracted (env broken_extractor)).
  repeat constructor; vm_compute; reflexivity.
Defined.

Lemma extraction_writes_only_text_witness :
  Forall2 same_but_text [article_with_url] [article_extracted].
Proof.
  apply (extraction_writes_only_text (env healthy) [article_with_url] 0 start
           [article_extracted] 1
           {| world := [];
              trace := [CallExtractArticleText "http://news/1"] |}).
  vm_compute. reflexivity.
Defined.

Lemma extraction_count_bounds_witness :
  0 <= 1 <= 0 + length [article_with_url].
Proof.
  apply (extraction_count_bounds (env healthy) [article_with_url] 0 start
           [article_extracted] 1
           {| world := [];
              trace := [CallExtractArticleText "http://news/1"] |}).
  vm_compute. reflexivity.
Defined.

Lemma empty_url_hides_link_witness :
  article_empty_url !! "link" = Some "http://news/2" /\
  run (extract_one (env healthy) article_empty_url 0) start
  = (Ok (article_empty_url, 0), start).
Proof.
  split; [vm_compute; reflexivity |].
  apply (empty_url_hides_link (env healthy)); vm_compute; reflexivity.
Defined.

Lemma link_is_used_without_url_witness :
  run (extract_one (env healthy) article_with_link 0) start
  = (Ok (<["full_article_text" := "Text of http://news/3"]> article_with_link,
         1),
     {| world := []; trace := [CallExtractArticleText "http://news/3"] |}).
Proof.
  rewrite (link_is_used_without_url (env healthy) article_with_link
             "http://news/3" 0 start).
  - vm_compute. reflexivity.
  - vm_compute. reflexivity.
  - vm_compute. reflexivity.
  - vm_compute. reflexivity.
  - discriminate.
Defined.

Lemma nothing_found_gives_fallback_witness :
  exists s',
    run (process_company_data (env blind_extractor) "AAPL" "NASDAQ"
           [article_with_url; article_without_url] "loser") start
    = (Ok (record_with_period "AAPL" "NASDAQ" "loser" no_news_text), s') /\
    Forall (fun ev => is_nlp_or_summarizer_call ev = false)
           (events_since start s').
Proof.
  apply (nothing_found_gives_fallback (env blind_extractor)).
  - intros url w. reflexivity.
  - repeat constructor; left; vm_compute; reflexivity.
Defined.

Lemma collected_summaries_are_nonempty_witness :
  Forall (fun x => x <> "") ["Summary: Profit doubled."] /\
  filter (fun x => truthy x = true) ["Summary: Profit doubled."]
  = ["Summary: Profit doubled."].
Proof.
  apply (collected_summaries_are_nonempty (env healthy) "AAPL" "up"
           [article_condensed] start ["Summary: Profit doubled."]
           (snd (run (summarize_each (env healthy) "AAPL" "up" 0
                        [article_condensed] []) start))).
  vm_compute. reflexivity.
Defined.

Lemma no_condensed_text_no_call_witness :
  run (summarize_each (env broken_summarizer) "AAPL" "up" 0
         [article_with_text; article_with_url] []) start
  = (Ok [], start).
Proof.
  apply (no_condensed_text_no_call (env broken_summarizer)).
  repeat constructor; vm_compute; reflexivity.
Defined.

Lemma process_company_data_effects_witness :
  exists evs,
    trace (snd (run (process_company_data (env healthy) "AAPL" "NASDAQ"
                       [article_with_url] "gainer") start))
    = trace start ++ evs /\
    Forall (company_event "AAPL" (direction_of "gainer")) evs.
Proof.
  apply (process_company_data_effects (env healthy) "AAPL" "NASDAQ"
           [article_with_url] "gainer" start
           (fst (run (process_company_data (env healthy) "AAPL" "NASDAQ"
                        [article_with_url] "gainer") start))).
  apply surjective_pairing.
Defined.


Lemma why_it_moves_effects_witness :
  exists evs,
    trace (snd (run (why_it_moves (env healthy) "AAPL" "NASDAQ"
                       float_minus_5) start))
    = trace start ++ evs /\
    Forall (mover_event "AAPL" "down") evs.
Proof.
  apply (why_it_moves_effects (env healthy) "AAPL" "NASDAQ" float_minus_5
           start
           (fst (run (why_it_moves (env healthy) "AAPL" "NASDAQ"
                        float_minus_5) start))).
  apply surjective_pairing.
Defined.

Lemma why_it_moves_record_witness :
  exists r s',
    run (why_it_moves (env healthy) "AAPL" "NASDAQ" float_minus_5) start
    = (Ok r, s') /\
    r !! "symbol" = Some (VStr "AAPL") /\
    r !! "type" = Some (VStr "loser").
Proof.
  destruct (run (why_it_moves (env healthy) "AAPL" "NASDAQ" float_minus_5)
              start) as [[r | e] s'] eqn:Hrun.
  - destruct (why_it_moves_record (env healthy) _ _ _ _ _ _ Hrun)
      as (Hsym & _ & _ & Hty & _).
    exists r, s'. split; [reflexivity |]. split; [exact Hsym | exact Hty].
  - exfalso.
    assert (Hok : raised (run (why_it_moves (env healthy) "AAPL" "NASDAQ"
                                 float_minus_5) start) = None)
      by (vm_compute; reflexivity).
    rewrite Hrun in Hok. discriminate Hok.
Defined.


Lemma why_it_moves_failure_points_witness :
  (path_exists (env locked_output)
     ("STOCK_DB/news/" +:+ "AAPL" +:+ "_news.json") (world start)
   = Raise (Exception "Permission denied") /\
   snd (run (why_it_moves (env locked_output) "AAPL" "NASDAQ" float_5) start)
   = start)
  \/
  (exists ev,
      last (trace (snd (run (why_it_moves (env locked_output) "AAPL" "NASDAQ"
                               float_5) start))) = Some ev /\
      is_failure_point ev = true).
Proof.
  apply (why_it_moves_failure_points (env locked_output) "AAPL" "NASDAQ"
           float_5 start (Exception "Permission denied")).
  vm_compute. reflexivity.
Defined.

(** The fourth failure point: for a cache file name that is too long the
    existence check raises, and [why_it_moves] with it, before any
    effect. *)
Example why_it_moves_fails_on_long_name :
  run (why_it_moves (env healthy) (str_repeat "A" 300) "NASDAQ" float_5) start
  = (Raise (Exception "[Errno 36] File name too long"), start).
Proof. vm_compute. reflexivity. Qed.

Lemma missing_cache_gives_fallback_witness :
  exists r s',
    run (why_it_moves (env two_caches) "MSFT" "NASDAQ" float_5) start
    = (Ok r, s') /\
    r !! "summary" = Some (VStr no_news_text) /\
    r !! "period" = Some (VStr "day").
Proof.
  destruct (run (why_it_moves (env two_caches) "MSFT" "NASDAQ" float_5)
              start) as [[r | e] s'] eqn:Hrun.
  - edestruct (missing_cache_gives_fallback (env two_caches) "MSFT" "NASDAQ"
                 float_5 start r s') as (Hsum & Hperiod & _).
    + right. exists (Exception "Expecting value"), []. vm_compute.
      reflexivity.
    + exact Hrun.
    + exists r, s'. split; [reflexivity |]. split; assumption.
  - exfalso.
    assert (Hok : raised (run (why_it_moves (env two_caches) "MSFT" "NASDAQ"
                                 float_5) start) = None)
      by (vm_compute; reflexivity).
    rewrite Hrun in Hok. discriminate Hok.
Defined.

Lemma derived_symbol_round_trip_witness :
  "STOCK_DB/news/"
    +:+ str_replace "_news" "" (stem (env healthy) ("AAPL" +:+ "_news.json"))
    +:+ "_news.json"
  = "STOCK_DB/news/" +:+ "AAPL" +:+ "_news.json".
Proof.
  apply (derived_symbol_round_trip (env healthy) "AAPL");
    vm_compute; reflexivity.
Defined.

(** A symbol with an underscore is not recovered: the file
    [X_news_news.json] of the symbol "X_news" is taken for the symbol
    "X". *)
Example derived_symbol_with_underscore :
  str_replace "_news" "" (stem (env healthy) ("X_news" +:+ "_news.json"))
  = "X".
Proof. vm_compute. reflexivity. Qed.

Lemma isoformat_injective_witness :
  isoformat clock = "2024-03-09T14:05:07.004200+00:00" /\ clock = clock.
Proof.
  split; [vm_compute; reflexivity |].
  apply (isoformat_injective clock clock); try reflexivity;
    vm_compute; repeat split; discriminate.
Defined.

Lemma every_news_file_is_started_witness :
  exists change,
    Log INFO ("Processing "
              +:+ str_replace "_news" "" (stem (env locked_output)
                                               "MSFT_news.json")
              +:+ " with change " +:+ change +:+ "%")
    ∈ events_since start
        (snd (run (process_files (env locked_output)
                     ["AAPL_news.json"; "MSFT_news.json"]) start)).
Proof.
  apply (every_news_file_is_started (env locked_output)).
  apply list_elem_of_further, list_elem_of_here.
Defined.
